(** * Stock prediction tracker: the prediction life cycle, verified

  A shallow embedding of the core of the tracker:
  - [PriceTracker] ([price_tracker.py]): the movement computation and the
    four-state status classifier;
  - [Scraper] ([scraper.py]): the claim extractor with its exclusion filter;
  - [Database] ([database.py]): the article store, duplicate detection;
  - [App] ([app.py]): the collection cycle and the refresh cycle.

  Python floats are IEEE 754 binary64 numbers: they are embedded as Rocq's
  primitive floats, so that comparisons, NaN and signed zeros behave as in
  the program. *)

From Stdlib Require Import ZArith List Bool Ascii String DecimalString Lia.
From Stdlib Require Import Floats.
Import ListNotations.

Local Open Scope Z_scope.

(* ================================================================== *)
(** * Python's arithmetic on floats *)
(* ================================================================== *)

Module PyFloat.

(** Round-half-even of the rational [n / d] (with [0 < d]) to an integer. *)
Definition div_half_even (n : Z) (d : Z) : Z :=
  let q := n / d in
  let r := n mod d in
  match Z.compare (2 * r) d with
  | Lt => q
  | Gt => q + 1
  | Eq => if Z.even q then q else q + 1
  end.

(** The nearest double (ties to even) of the rational [(-1)^s * n / d], for
    [0 <= n] and [0 < d]; a zero keeps the sign [s].  [SFdiv] is the
    library's IEEE 754 division on sign, mantissa and exponent: on two
    integers it rounds their exact quotient. *)
Definition nearest_float (s : bool) (n : Z) (d : positive) : float :=
  match n with
  | Zpos p => SF2Prim (SFdiv prec emax (S754_finite s p 0) (S754_finite false d 0))
  | _ => if s then neg_zero else zero
  end.

(** [a / b] on Python integers with [0 < b]: the nearest double of the
    quotient. *)
Definition int_truediv (a : Z) (b : positive) : float :=
  if (a <? 0)%Z then nearest_float true (- a) b else nearest_float false a b.

(** [round(x, 2)]: CPython prints [x] correctly rounded to two decimals
    (ties on the exact binary value go to the even digit) and reads the
    decimal string back as the nearest double.  NaN and the infinities
    round to themselves; the sign of a zero result is kept.  A double
    [m * 2^e] with [-2 <= e] is a multiple of a quarter, has no more than two
    decimals, and rounds to itself. *)
Definition round2 (x : float) : float :=
  match Prim2SF x with
  | S754_finite s m e =>
      if (-2 <=? e)%Z then x
      else nearest_float s (div_half_even (Zpos m * 100) (Z.pow 2 (- e))) 100
  | _ => x
  end.

End PyFloat.

(* ================================================================== *)
(** * price_tracker.py *)
(* ================================================================== *)

(** The status column of an article: one of four string constants. *)
Inductive Status : Type := PENDING | HIT | PARTIAL | MISS.

Definition Status_eqb (a b : Status) : bool :=
  match a, b with
  | PENDING, PENDING | HIT, HIT | PARTIAL, PARTIAL | MISS, MISS => true
  | _, _ => false
  end.

Definition is_terminal (s : Status) : bool := negb (Status_eqb s PENDING).

(** The two values of [claimed_direction] / [actual_direction]. *)
Inductive Dir : Type := up | down.

Definition Dir_eqb (a b : Dir) : bool :=
  match a, b with
  | up, up | down, down => true
  | _, _ => false
  end.

Module PriceTracker.

Local Open Scope float_scope.

(** [calculate_movement(previous_close, current_price)] *)
Definition calculate_movement (previous_close current_price : float) : float :=
  if previous_close =? 0 then 0
  else
    let movement := ((current_price - previous_close) / previous_close) * 100 in
    PyFloat.round2 movement.

(** The dictionary that [get_price_data] returns. *)
Record price_data : Type := PriceData {
  previous_close : float;
  current_price : float;
  actual_movement_pct : float
}.

(** [get_price_data(ticker)], from what [get_previous_close(ticker)] and
    [get_current_price(ticker)] return; the two look the prices up on the
    network and return [None] on any failure. *)
Definition get_price_data (previous_close current_price : option float)
    : option price_data :=
  match previous_close with
  | None => None
  | Some previous_close =>
      match current_price with
      | None => None
      | Some current_price =>
          let actual_movement := calculate_movement previous_close current_price in
          Some (PriceData previous_close current_price actual_movement)
      end
  end.

(** [determine_status(claimed_percentage, actual_movement_pct, direction,
    is_market_closed)].  [direction] is the article's direction string. *)
Definition determine_status (claimed_percentage actual_movement_pct : float)
    (direction : string) (is_market_closed : bool) : Status :=
  let claimed_direction := if 0 <? claimed_percentage then up else down in
  let actual_direction := if 0 <? actual_movement_pct then up else down in
  if negb (Dir_eqb claimed_direction actual_direction) && is_market_closed
  then MISS
  else
    let gap := abs (abs claimed_percentage - abs actual_movement_pct) in
    if (gap <=? 5) && Dir_eqb claimed_direction actual_direction then HIT
    else if (gap <=? 10) && Dir_eqb claimed_direction actual_direction then
      if is_market_closed then PARTIAL else PENDING
    else if is_market_closed then MISS
    else PENDING.

End PriceTracker.

(* ================================================================== *)
(** * A backtracking matcher for the regular expressions of scraper.py *)
(* ================================================================== *)

(** Texts are byte strings; the character tests below are those of Python's
    [re] and [str] on ASCII characters. *)
Module Re.

Local Open Scope char_scope.
Local Open Scope nat_scope.

Definition in_range (lo hi c : ascii) : bool :=
  (nat_of_ascii lo <=? nat_of_ascii c) && (nat_of_ascii c <=? nat_of_ascii hi).

Definition is_upper (c : ascii) : bool := in_range "A" "Z" c.
Definition is_lower (c : ascii) : bool := in_range "a" "z" c.
Definition is_digit (c : ascii) : bool := in_range "0" "9" c.

(** [\s]: tab, newline, vertical tab, form feed, carriage return, the four
    separators 0x1c-0x1f and the space. *)
Definition is_space (c : ascii) : bool :=
  let n := nat_of_ascii c in
  ((9 <=? n) && (n <=? 13)) || ((28 <=? n) && (n <=? 32)).

(** [\w]: letters, digits and the underscore. *)
Definition is_word (c : ascii) : bool :=
  is_upper c || is_lower c || is_digit c || Ascii.eqb c "_".

Definition lower_char (c : ascii) : ascii :=
  if is_upper c then ascii_of_nat (nat_of_ascii c + 32) else c.

Definition upper_char (c : ascii) : ascii :=
  if is_lower c then ascii_of_nat (nat_of_ascii c - 32) else c.

(** [str.lower()] and [str.upper()] *)
Fixpoint lower (s : string) : string :=
  match s with
  | EmptyString => EmptyString
  | String c s' => String (lower_char c) (lower s')
  end.

Fixpoint upper (s : string) : string :=
  match s with
  | EmptyString => EmptyString
  | String c s' => String (upper_char c) (upper s')
  end.

(** The pattern syntax that the program's patterns use. *)
Inductive regex : Type :=
| Eps                                  (* the empty pattern *)
| Cls (p : ascii -> bool)              (* one character of a class *)
| Lit (l : string)                     (* literal text *)
| Cat (r1 r2 : regex)                  (* r1 r2 *)
| Alt (r1 r2 : regex)                  (* r1|r2 *)
| Opt (r : regex)                      (* r?  (greedy) *)
| Many (p : ascii -> bool)             (* [class]*  (greedy) *)
| Grp (n : nat) (r : regex)            (* capturing group number n *)
| Bnd.                                 (* \b *)

Definition Plus (p : ascii -> bool) : regex := Cat (Cls p) (Many p).

(** Where the matcher stands: [pos] characters consumed, the last of them
    [prev], the text still ahead [rest], and the groups closed so far. *)
Record mstate : Type := MState {
  pos : nat;
  prev : option ascii;
  rest : string;
  caps : list (nat * (nat * nat))
}.

Definition step_char (c : ascii) (s' : string) (st : mstate) : mstate :=
  MState (S (pos st)) (Some c) s' (caps st).

Definition set_cap (n from to : nat) (st : mstate) : mstate :=
  MState (pos st) (prev st) (rest st) ((n, (from, to)) :: caps st).

(** With [re.IGNORECASE] ([ic]) a character matches when one of its case
    variants does. *)
Definition cls_ok (ic : bool) (p : ascii -> bool) (c : ascii) : bool :=
  if ic then p c || p (lower_char c) || p (upper_char c) else p c.

Definition chr_ok (ic : bool) (x c : ascii) : bool :=
  if ic then Ascii.eqb (lower_char x) (lower_char c) else Ascii.eqb x c.

Fixpoint match_lit (ic : bool) (l : string) (st : mstate) : option mstate :=
  match l with
  | EmptyString => Some st
  | String x l' =>
      match rest st with
      | String c s' =>
          if chr_ok ic x c then match_lit ic l' (step_char c s' st) else None
      | EmptyString => None
      end
  end.

Definition opt_is_word (o : option ascii) : bool :=
  match o with Some c => is_word c | None => false end.

Definition next_char (s : string) : option ascii :=
  match s with String c _ => Some c | EmptyString => None end.

Definition at_boundary (st : mstate) : bool :=
  xorb (opt_is_word (prev st)) (opt_is_word (next_char (rest st))).

Definition or_else {A : Type} (x y : option A) : option A :=
  match x with Some _ => x | None => y end.

(** Greedy repetition of a character class: take as many characters as
    possible, give them back one by one while the continuation fails. *)
Fixpoint match_many {A : Type} (ic : bool) (p : ascii -> bool) (s : string)
    (n : nat) (pv : option ascii) (cs : list (nat * (nat * nat)))
    (k : mstate -> option A) : option A :=
  match s with
  | String c s' =>
      if cls_ok ic p c
      then or_else (match_many ic p s' (S n) (Some c) cs k) (k (MState n pv s cs))
      else k (MState n pv s cs)
  | EmptyString => k (MState n pv s cs)
  end.

(** The matcher, in continuation-passing style: [k] is the rest of the
    pattern; alternatives are tried in order, as [re] does. *)
Fixpoint rmatch {A : Type} (ic : bool) (r : regex) (st : mstate)
    (k : mstate -> option A) : option A :=
  match r with
  | Eps => k st
  | Cls p =>
      match rest st with
      | String c s' => if cls_ok ic p c then k (step_char c s' st) else None
      | EmptyString => None
      end
  | Lit l =>
      match match_lit ic l st with
      | Some st' => k st'
      | None => None
      end
  | Cat r1 r2 => rmatch ic r1 st (fun st1 => rmatch ic r2 st1 k)
  | Alt r1 r2 => or_else (rmatch ic r1 st k) (rmatch ic r2 st k)
  | Opt r1 => or_else (rmatch ic r1 st k) (k st)
  | Many p => match_many ic p (rest st) (pos st) (prev st) (caps st) k
  | Grp n r1 => rmatch ic r1 st (fun st1 => k (set_cap n (pos st) (pos st1) st1))
  | Bnd => if at_boundary st then k st else None
  end.

(** A match object: where it starts, and the state at its end. *)
Record rematch : Type := ReMatch { m_start : nat; m_end : mstate }.

(** The leftmost match starting at or after the current position. *)
Fixpoint search_from (ic : bool) (r : regex) (pv : option ascii) (n : nat)
    (s : string) : option rematch :=
  match rmatch ic r (MState n pv s []) (fun st => Some st) with
  | Some st => Some (ReMatch n st)
  | None =>
      match s with
      | String c s' => search_from ic r (Some c) (S n) s'
      | EmptyString => None
      end
  end.

(** [re.search(pattern, text)] *)
Definition search (ic : bool) (r : regex) (text : string) : option rematch :=
  search_from ic r None 0 text.

(** [re.finditer]: the successive non-overlapping matches, left to right.
    After an empty match the scan moves one character on.  The text length
    bounds the number of matches. *)
Fixpoint finditer_from (fuel : nat) (ic : bool) (r : regex)
    (pv : option ascii) (n : nat) (s : string) : list rematch :=
  match fuel with
  | O => []
  | S fuel' =>
      match search_from ic r pv n s with
      | None => []
      | Some m =>
          let e := m_end m in
          m :: (if pos e =? m_start m
                then match rest e with
                     | String c s' => finditer_from fuel' ic r (Some c) (S (pos e)) s'
                     | EmptyString => []
                     end
                else finditer_from fuel' ic r (prev e) (pos e) (rest e))
      end
  end.

Definition finditer (ic : bool) (r : regex) (text : string) : list rematch :=
  finditer_from (S (String.length text)) ic r None 0 text.

(** [match.group(0)] and [match.group(n)] on the searched text. *)
Definition group0 (text : string) (m : rematch) : string :=
  substring (m_start m) (pos (m_end m) - m_start m) text.

Fixpoint find_cap (n : nat) (cs : list (nat * (nat * nat))) : option (nat * nat) :=
  match cs with
  | [] => None
  | (i, se) :: cs' => if i =? n then Some se else find_cap n cs'
  end.

Definition group (text : string) (m : rematch) (n : nat) : string :=
  match find_cap n (caps (m_end m)) with
  | Some (from, to) => substring from (to - from) text
  | None => EmptyString
  end.

(** [word in text] for strings *)
Fixpoint starts_with (w s : string) : bool :=
  match w with
  | EmptyString => true
  | String x w' =>
      match s with
      | String c s' => Ascii.eqb x c && starts_with w' s'
      | EmptyString => false
      end
  end.

Fixpoint contains (w s : string) : bool :=
  starts_with w s ||
  match s with
  | String _ s' => contains w s'
  | EmptyString => false
  end.

(** ** The words of a pattern

    [lang r w]: the pattern [r], without [re.IGNORECASE], matches exactly the
    text [w] whatever surrounds it.  A pattern with [\b] depends on what
    surrounds the text, and has no such word. *)
Fixpoint all_chars (p : ascii -> bool) (w : string) : bool :=
  match w with
  | EmptyString => true
  | String c w' => p c && all_chars p w'
  end.

Fixpoint lang (r : regex) (w : string) : Prop :=
  match r with
  | Eps => w = EmptyString
  | Cls p => exists c, w = String c EmptyString /\ p c = true
  | Lit l => w = l
  | Cat r1 r2 => exists w1 w2, w = (w1 ++ w2)%string /\ lang r1 w1 /\ lang r2 w2
  | Alt r1 r2 => lang r1 w \/ lang r2 w
  | Opt r1 => w = EmptyString \/ lang r1 w
  | Many p => all_chars p w = true
  | Grp _ r1 => lang r1 w
  | Bnd => False
  end.

(** The two parts of a text cut after [i] characters. *)
Definition cut (i : nat) (w : string) : string * string :=
  (substring 0 i w, substring i (String.length w - i) w).

(** [lang], decided by trying every cut of the text at a concatenation. *)
Fixpoint langb (r : regex) (w : string) : bool :=
  match r with
  | Eps => String.eqb w EmptyString
  | Cls p =>
      match w with
      | String c EmptyString => p c
      | _ => false
      end
  | Lit l => String.eqb w l
  | Cat r1 r2 =>
      existsb (fun i => langb r1 (fst (cut i w)) && langb r2 (snd (cut i w)))
        (seq 0 (S (String.length w)))
  | Alt r1 r2 => langb r1 w || langb r2 w
  | Opt r1 => String.eqb w EmptyString || langb r1 w
  | Many p => all_chars p w
  | Grp _ r1 => langb r1 w
  | Bnd => false
  end.

End Re.

(* ================================================================== *)
(** * scraper.py *)
(* ================================================================== *)

Module Scraper.

Import Re.
Local Open Scope string_scope.

(** An alternation [r1|r2|...], and one of literals [(?:w1|w2|...)]. *)
Definition alts (rs : list regex) : regex :=
  fold_right Alt (last rs Eps) (removelast rs).

Definition lit_alt (ws : list string) : regex := alts (map Lit ws).

(** [[A-Z]{2,5}], and [(\b[A-Z]{2,5}\b)] as group 1 *)
Definition ticker_core : regex :=
  Cat (Cls is_upper) (Cat (Cls is_upper)
    (Opt (Cat (Cls is_upper) (Opt (Cat (Cls is_upper) (Opt (Cls is_upper))))))).

Definition bounded_ticker : regex := Grp 1 (Cat Bnd (Cat ticker_core Bnd)).

(** [(\d+(?:\.\d+)?)\s*%] *)
Definition number_percent : regex :=
  Cat (Grp 2 (Cat (Plus is_digit) (Opt (Cat (Lit ".") (Plus is_digit)))))
      (Cat (Many is_space) (Lit "%")).

(** A verb with an optional final [s]: [surges?] *)
Definition verb (stem : string) : regex := Cat (Lit stem) (Opt (Lit "s")).

(** [self.movement_patterns] *)
Definition movement_patterns : list regex := [
  (* (\b[A-Z]{2,5}\b)\s+(?:surges?|jumps?|soars?|rallies?|climbs?)\s+(\d+(?:\.\d+)?)\s*% *)
  Cat bounded_ticker (Cat (Plus is_space)
    (Cat (alts [verb "surge"; verb "jump"; verb "soar"; verb "rallie"; verb "climb"])
      (Cat (Plus is_space) number_percent)));
  (* (\b[A-Z]{2,5}\b)\s+(?:plunges?|drops?|falls?|declines?|tumbles?)\s+(\d+(?:\.\d+)?)\s*% *)
  Cat bounded_ticker (Cat (Plus is_space)
    (Cat (alts [verb "plunge"; verb "drop"; verb "fall"; verb "decline"; verb "tumble"])
      (Cat (Plus is_space) number_percent)));
  (* \$([A-Z]{2,5})\s+(?:up|down)\s+(\d+(?:\.\d+)?)\s*% *)
  Cat (Lit "$") (Cat (Grp 1 ticker_core) (Cat (Plus is_space)
    (Cat (lit_alt ["up"; "down"]) (Cat (Plus is_space) number_percent))));
  (* (\b[A-Z]{2,5}\b)\s+(?:stock|shares)\s+(?:up|down)\s+(\d+(?:\.\d+)?)\s*% *)
  Cat bounded_ticker (Cat (Plus is_space)
    (Cat (lit_alt ["stock"; "shares"]) (Cat (Plus is_space)
      (Cat (lit_alt ["up"; "down"]) (Cat (Plus is_space) number_percent)))))
].

(** [word\s+(?:surge|jump|rise|gain)] *)
Definition hedge (word : string) : regex :=
  Cat (Lit word) (Cat (Plus is_space) (lit_alt ["surge"; "jump"; "rise"; "gain"])).

(** [first\s+second] *)
Definition two_words (first second : string) : regex :=
  Cat (Lit first) (Cat (Plus is_space) (Lit second)).

(** [self.exclusion_patterns] *)
Definition exclusion_patterns : list regex := [
  hedge "could";                                   (* could\s+(?:surge|jump|rise|gain) *)
  hedge "might";                                   (* might\s+(?:surge|jump|rise|gain) *)
  hedge "may";                                     (* may\s+(?:surge|jump|rise|gain) *)
  two_words "expected" "to";                       (* expected\s+to *)
  two_words "projected" "to";                      (* projected\s+to *)
  two_words "forecasted" "to";                     (* forecasted\s+to *)
  Cat (Lit "if") (Plus is_space);                  (* if\s+ *)
  Cat (Lit "analyst") (Cat (Opt (Lit "s"))
    (Cat (Plus is_space) (Lit "predict")));        (* analysts?\s+predict *)
  two_words "price" "target";                      (* price\s+target *)
  two_words "last" "week";                         (* last\s+week *)
  Lit "yesterday";                                 (* yesterday *)
  two_words "last" "month";                        (* last\s+month *)
  two_words "last" "quarter";                      (* last\s+quarter *)
  two_words "surged" "last";                       (* surged\s+last *)
  two_words "dropped" "last"                       (* dropped\s+last *)
].

(** The decimal digits of a string as a number, [None] on any other
    character. *)
Fixpoint digits_value (s : string) (acc : Z) : option Z :=
  match s with
  | EmptyString => Some acc
  | String c s' =>
      if is_digit c
      then digits_value s' (10 * acc + Z.of_nat (nat_of_ascii c - 48))
      else None
  end.

Fixpoint split_dot (s : string) : string * option string :=
  match s with
  | EmptyString => (EmptyString, None)
  | String c s' =>
      if Ascii.eqb c "." then (EmptyString, Some s')
      else let (a, b) := split_dot s' in (String c a, b)
  end.

(** [float(percentage_str)] on the strings that group 2 can hold, an
    integer part with an optional fraction: the nearest double of the
    decimal number.  [None] stands for [ValueError]. *)
Definition float_of_string (s : string) : option float :=
  match split_dot s with
  | (ip, None) =>
      match ip with
      | EmptyString => None
      | _ => match digits_value ip 0 with
             | Some n => Some (PyFloat.int_truediv n 1)
             | None => None
             end
      end
  | (ip, Some fp) =>
      match ip, fp with
      | EmptyString, EmptyString => None
      | _, _ =>
          match digits_value (ip ++ fp) 0 with
          | Some n =>
              Some (PyFloat.int_truediv n
                      (Z.to_pos (10 ^ Z.of_nat (String.length fp))))
          | None => None
          end
      end
  end.

Definition down_words : list string :=
  ["plunge"; "drop"; "fall"; "decline"; "tumble"; "down"].

(** A claim: [(ticker, percentage, direction)]. *)
Definition claim : Type := string * float * string.

(** The loop over the matches of one pattern. *)
Fixpoint scan_matches (text : string) (ms : list rematch) : option claim :=
  match ms with
  | [] => None
  | m :: ms' =>
      let ticker := upper (group text m 1) in
      let percentage_str := group text m 2 in
      match float_of_string percentage_str with
      | None => scan_matches text ms'
      | Some percentage =>
          if (percentage <? 20)%float then scan_matches text ms'
          else
            let match_text := lower (group0 text m) in
            if existsb (fun word => contains word match_text) down_words
            then Some (ticker, (- percentage)%float, "down")
            else Some (ticker, percentage, "up")
      end
  end.

(** The loop over the movement patterns. *)
Fixpoint scan_patterns (text : string) (ps : list regex) : option claim :=
  match ps with
  | [] => None
  | p :: ps' =>
      match scan_matches text (finditer true p text) with
      | Some c => Some c
      | None => scan_patterns text ps'
      end
  end.

Definition is_some {A : Type} (o : option A) : bool :=
  match o with Some _ => true | None => false end.

(** [extract_ticker_and_percentage(text)] *)
Definition extract_ticker_and_percentage (text : string) : option claim :=
  let text_lower := lower text in
  if existsb (fun pattern => is_some (search false pattern text_lower))
       exclusion_patterns
  then None
  else scan_patterns text movement_patterns.

End Scraper.


(* ================================================================== *)
(** * Python's [datetime] values *)
(* ================================================================== *)

Module PyDatetime.

Local Open Scope Z_scope.

(** A [datetime]: the wall-clock reading in microseconds since the start of
    year 1, and the UTC offset in microseconds of an aware value ([None] for a
    naive one). *)
Record datetime : Type := Datetime {
  wall_us : Z;
  utcoffset : option Z
}.

(** [a - b], a [timedelta] in microseconds.  Subtracting an aware and a naive
    value raises [TypeError] ([None]). *)
Definition sub (a b : datetime) : option Z :=
  match utcoffset a, utcoffset b with
  | None, None => Some (wall_us a - wall_us b)
  | Some oa, Some ob => Some ((wall_us a - oa) - (wall_us b - ob))
  | _, _ => None
  end.

(** [timedelta.total_seconds()] *)
Definition total_seconds (delta : Z) : float :=
  PyFloat.int_truediv delta 1000000.

(** ** Reading ISO 8601 strings

    [iso_parse] reads the strings that [datetime.isoformat()] writes,
    [YYYY-MM-DD[*HH[:MM[:SS[.fff[fff]]]][+HH:MM]]] with any one character
    between date and time, and rejects everything else. *)

Fixpoint take_digits (n : nat) (s : string) (acc : Z) : option (Z * string) :=
  match n with
  | O => Some (acc, s)
  | S n' =>
      match s with
      | String c s' =>
          if Re.is_digit c
          then take_digits n' s' (10 * acc + Z.of_nat (nat_of_ascii c - 48))
          else None
      | EmptyString => None
      end
  end.

Definition expect (x : ascii) (s : string) : option string :=
  match s with
  | String c s' => if Ascii.eqb c x then Some s' else None
  | EmptyString => None
  end.

Definition is_leap (y : Z) : bool :=
  ((y mod 4 =? 0) && negb (y mod 100 =? 0)) || (y mod 400 =? 0).

Definition days_in_month (y m : Z) : Z :=
  if m =? 2 then (if is_leap y then 29 else 28)
  else if (m =? 4) || (m =? 6) || (m =? 9) || (m =? 11) then 30
  else 31.

Fixpoint days_before_month (y : Z) (m : nat) : Z :=
  match m with
  | O => 0
  | S m' =>
      match m' with
      | O => 0
      | _ => days_before_month y m' + days_in_month y (Z.of_nat m')
      end
  end.

Definition days_before_year (y : Z) : Z :=
  let p := y - 1 in p * 365 + p / 4 - p / 100 + p / 400.

(** The proleptic Gregorian ordinal of a date, 1 for 0001-01-01. *)
Definition ymd2ord (y m d : Z) : Z :=
  days_before_year y + days_before_month y (Z.to_nat m) + d.

Definition valid_date (y m d : Z) : bool :=
  (1 <=? y) && (y <=? 9999) && (1 <=? m) && (m <=? 12) &&
  (1 <=? d) && (d <=? days_in_month y m).

(** [HH[:MM[:SS[.fff[fff]]]]] read to the end of the string:
    hour, minute, second, microsecond. *)
Definition parse_fraction (s : string) : option Z :=
  match expect "." s with
  | None => None
  | Some f =>
      match String.length f with
      | 3%nat => match take_digits 3 f 0 with
                 | Some (v, _) => Some (v * 1000)
                 | None => None
                 end
      | 6%nat => match take_digits 6 f 0 with
                 | Some (v, _) => Some v
                 | None => None
                 end
      | _ => None
      end
  end.

Definition parse_hh_mm_ss_ff (s : string) : option (Z * Z * Z * Z) :=
  match take_digits 2 s 0 with
  | None => None
  | Some (hh, EmptyString) => Some (hh, 0, 0, 0)
  | Some (hh, s1) =>
      match expect ":" s1 with
      | None => None
      | Some s2 =>
          match take_digits 2 s2 0 with
          | None => None
          | Some (mm, EmptyString) => Some (hh, mm, 0, 0)
          | Some (mm, s3) =>
              match expect ":" s3 with
              | None => None
              | Some s4 =>
                  match take_digits 2 s4 0 with
                  | None => None
                  | Some (ss, EmptyString) => Some (hh, mm, ss, 0)
                  | Some (ss, s5) =>
                      match parse_fraction s5 with
                      | Some us => Some (hh, mm, ss, us)
                      | None => None
                      end
                  end
              end
          end
      end
  end.

(** Splits a time string at its first sign character: the time proper, and
    the sign and text of the offset when there is one. *)
Fixpoint split_offset (s : string) : string * option (bool * string) :=
  match s with
  | EmptyString => (EmptyString, None)
  | String c s' =>
      if Ascii.eqb c "+" then (EmptyString, Some (false, s'))
      else if Ascii.eqb c "-" then (EmptyString, Some (true, s'))
      else let (t, o) := split_offset s' in (String c t, o)
  end.

Definition valid_time (hh mm ss : Z) : bool :=
  (hh <=? 23) && (mm <=? 59) && (ss <=? 59).

Definition time_us (hh mm ss us : Z) : Z :=
  ((hh * 60 + mm) * 60 + ss) * 1000000 + us.

Definition parse_offset (o : option (bool * string)) : option (option Z) :=
  match o with
  | None => Some None
  | Some (neg, tz) =>
      match String.length tz with
      | 5%nat =>
          match parse_hh_mm_ss_ff tz with
          | Some (hh, mm, _, _) =>
              if time_us hh mm 0 0 <? 86400000000
              then Some (Some (if neg then - time_us hh mm 0 0 else time_us hh mm 0 0))
              else None
          | None => None
          end
      | _ => None
      end
  end.

Definition iso_parse (s : string) : option datetime :=
  match take_digits 4 s 0 with
  | None => None
  | Some (y, s1) =>
  match expect "-" s1 with
  | None => None
  | Some s2 =>
  match take_digits 2 s2 0 with
  | None => None
  | Some (m, s3) =>
  match expect "-" s3 with
  | None => None
  | Some s4 =>
  match take_digits 2 s4 0 with
  | None => None
  | Some (d, s5) =>
      if negb (valid_date y m d) then None
      else
        let day_us := (ymd2ord y m d) * 86400000000 in
        match s5 with
        | EmptyString => Some (Datetime day_us None)
        | String _ tstr =>
            let (timestr, off) := split_offset tstr in
            match parse_hh_mm_ss_ff timestr, parse_offset off with
            | Some (hh, mm, ss, us), Some tz =>
                if valid_time hh mm ss
                then Some (Datetime (day_us + time_us hh mm ss us) tz)
                else None
            | _, _ => None
            end
        end
  end end end end end.

End PyDatetime.

(* ================================================================== *)
(** * database.py *)
(* ================================================================== *)

Module Database.

Import PyDatetime.
Local Open Scope Z_scope.

(** A row of the [articles] table. *)
Record article : Type := Article {
  id : Z;
  ticker : string;
  claimed_percentage : float;
  direction : string;
  article_timestamp : string;
  source_name : string;
  article_url : string;
  headline : string;
  status : Status;
  is_duplicate : bool;
  collection_date : string
}.

(** A row of the [price_snapshots] table. *)
Record snapshot : Type := Snapshot {
  snapshot_id : Z;
  article_id : Z;
  check_timestamp : string;
  previous_close : float;
  current_price : float;
  actual_movement_pct : float;
  gap : float
}.

(** The database: the two tables in row order, and the last value handed out
    by [AUTOINCREMENT] for the articles. *)
Record db : Type := Db {
  articles : list article;
  price_snapshots : list snapshot;
  articles_seq : Z
}.

(** [init_database] on a new file *)
Definition init_database : db := Db [] [] 0.

Definition set_status (s : Status) (a : article) : article :=
  Article (id a) (ticker a) (claimed_percentage a) (direction a)
    (article_timestamp a) (source_name a) (article_url a) (headline a)
    s (is_duplicate a) (collection_date a).

Definition set_duplicate (a : article) : article :=
  Article (id a) (ticker a) (claimed_percentage a) (direction a)
    (article_timestamp a) (source_name a) (article_url a) (headline a)
    (status a) true (collection_date a).

Definition url_taken (url : string) (d : db) : bool :=
  existsb (fun a => String.eqb (article_url a) url) (articles d).

(** [add_article]: the new row's id, or [None] when the [INSERT] raises
    [IntegrityError]: the url is already stored ([article_url TEXT UNIQUE]),
    or the percentage is a NaN, which SQLite binds as NULL
    ([claimed_percentage REAL NOT NULL]). *)
Definition add_article (d : db) (ticker : string) (claimed_percentage : float)
    (direction article_timestamp source_name article_url headline
     collection_date : string) : db * option Z :=
  if is_nan claimed_percentage || url_taken article_url d then (d, None)
  else
    let article_id := articles_seq d + 1 in
    (Db (articles d ++
           [Article article_id ticker claimed_percentage direction
              article_timestamp source_name article_url headline
              PENDING false collection_date])
        (price_snapshots d) article_id,
     Some article_id).

(** [add_price_snapshot]; [check_timestamp] is the clock reading.  A NaN among
    the numbers violates [NOT NULL] and nothing is stored. *)
Definition add_price_snapshot (d : db) (check_timestamp : string)
    (article_id : Z) (previous_close current_price actual_movement_pct
     gap : float) : db * bool :=
  if is_nan previous_close || is_nan current_price ||
     is_nan actual_movement_pct || is_nan gap
  then (d, false)
  else
    (Db (articles d)
        (price_snapshots d ++
           [Snapshot (Z.of_nat (List.length (price_snapshots d)) + 1) article_id
              check_timestamp previous_close current_price
              actual_movement_pct gap])
        (articles_seq d),
     true).

(** [update_article_status]: [UPDATE articles SET status = ? WHERE id = ?] *)
Definition update_article_status (d : db) (article_id : Z) (s : Status) : db :=
  Db (map (fun a => if id a =? article_id then set_status s a else a) (articles d))
     (price_snapshots d) (articles_seq d).

(** [mark_as_duplicate]: [UPDATE articles SET is_duplicate = 1 WHERE id = ?] *)
Definition mark_as_duplicate (d : db) (article_id : Z) : db :=
  Db (map (fun a => if id a =? article_id then set_duplicate a else a) (articles d))
     (price_snapshots d) (articles_seq d).

(** [get_pending_articles]: [... WHERE status = 'PENDING'] *)
Definition get_pending_articles (d : db) : list article :=
  filter (fun a => Status_eqb (status a) PENDING) (articles d).

Section Duplicates.

(** [datetime.fromisoformat], with [None] for the exception it raises on a
    string it cannot read. *)
Variable fromisoformat : string -> option datetime.

(** The [WHERE] clause of the duplicate query. *)
Definition similar_claim (ticker : string) (claimed_percentage : float)
    (collection_date : string) (a : article) : bool :=
  String.eqb (Database.ticker a) ticker &&
  String.eqb (Database.collection_date a) collection_date &&
  (abs (Database.claimed_percentage a - claimed_percentage) <=? 3)%float.

(** The body of the loop over the selected rows: [Some true] when the row is
    appended, [Some false] when it is not, [None] when the [try] block raises
    (and the [except] clause goes on to the next row). *)
Definition within_window (article_time : datetime) (existing_timestamp : string)
    : option bool :=
  match fromisoformat existing_timestamp with
  | None => None
  | Some existing_time =>
      match sub article_time existing_time with
      | None => None
      | Some delta =>
          let time_diff := abs (total_seconds delta / 3600)%float in
          Some (time_diff <=? 2)%float
      end
  end.

Fixpoint scan_rows (article_time : datetime) (rows : list article) : list Z :=
  match rows with
  | [] => []
  | row :: rows' =>
      match within_window article_time (article_timestamp row) with
      | Some true => id row :: scan_rows article_time rows'
      | Some false => scan_rows article_time rows'
      | None => scan_rows article_time rows'
      end
  end.

(** [check_for_duplicates]; [now] is the reading of [datetime.now()], a naive
    value, used when the new timestamp cannot be read. *)
Definition check_for_duplicates (now : Z) (d : db) (ticker : string)
    (claimed_percentage : float) (article_timestamp collection_date : string)
    : list Z :=
  let article_time :=
    match fromisoformat article_timestamp with
    | Some t => t
    | None => Datetime now None
    end in
  scan_rows article_time
    (filter (similar_claim ticker claimed_percentage collection_date)
       (articles d)).

End Duplicates.

End Database.

(* ================================================================== *)
(** * app.py: the collection cycle and the refresh cycle *)
(* ================================================================== *)

Module App.

Import PyDatetime Database.

(** An entry of the list that [scraper.scrape_all_sources()] returns. *)
Record scraped : Type := Scraped {
  s_ticker : string;
  s_claimed_percentage : float;
  s_direction : string;
  s_headline : string;
  s_article_url : string;
  s_source_name : string;
  s_article_timestamp : string
}.

(** What one collection cycle reads from outside, at its [i]-th article:
    the answer of [price_tracker.validate_ticker] and the clock. *)
Record collect_env : Type := CollectEnv {
  validate_ticker : nat -> string -> bool;
  clock : nat -> Z
}.

(** What one refresh cycle reads from outside: the market clock once, and
    at its [i]-th article the two price lookups and the time of the check. *)
Record refresh_env : Type := RefreshEnv {
  is_market_closed : bool;
  get_previous_close : nat -> string -> option float;
  get_current_price : nat -> string -> option float;
  check_time : nat -> string
}.

(** Python's truth value of [article_id] *)
Definition truthy (article_id : option Z) : bool :=
  match article_id with
  | Some i => negb (i =? 0)%Z
  | None => false
  end.

Definition nonempty {A : Type} (l : list A) : bool :=
  match l with [] => false | _ => true end.

Section Collect.

Variable fromisoformat : string -> option datetime.

(** The [for article in articles] loop of [collect_articles]; [i] counts the
    iterations. *)
Fixpoint collect_loop (env : collect_env) (today : string) (i : nat)
    (arts : list scraped) (d : db) (added_count duplicate_count invalid_count : nat)
    : db * (nat * nat * nat) :=
  match arts with
  | [] => (d, (added_count, duplicate_count, invalid_count))
  | article :: arts' =>
      if negb (validate_ticker env i (s_ticker article))
      then collect_loop env today (S i) arts' d
             added_count duplicate_count (S invalid_count)
      else
        let duplicates :=
          check_for_duplicates fromisoformat (clock env i) d
            (s_ticker article) (s_claimed_percentage article)
            (s_article_timestamp article) today in
        let (d1, article_id) :=
          add_article d (s_ticker article) (s_claimed_percentage article)
            (s_direction article) (s_article_timestamp article)
            (s_source_name article) (s_article_url article)
            (s_headline article) today in
        if truthy article_id
        then
          if nonempty duplicates
          then collect_loop env today (S i) arts'
                 (mark_as_duplicate d1 (match article_id with Some k => k | None => 0%Z end))
                 (S added_count) (S duplicate_count) invalid_count
          else collect_loop env today (S i) arts' d1
                 (S added_count) duplicate_count invalid_count
        else collect_loop env today (S i) arts' d1
               added_count (S duplicate_count) invalid_count
  end.

(** [collect_articles()], on the scraped articles and today's date *)
Definition collect_articles (env : collect_env) (today : string)
    (arts : list scraped) (d : db) : db * (nat * nat * nat) :=
  collect_loop env today 0 arts d 0 0 0.

End Collect.

(** The [for article in pending_articles] loop of [update_prices]. *)
Fixpoint update_loop (env : refresh_env) (i : nat) (pending : list article)
    (d : db) (updated_count : nat) : db * nat :=
  match pending with
  | [] => (d, updated_count)
  | article :: pending' =>
      match PriceTracker.get_price_data
              (get_previous_close env i (ticker article))
              (get_current_price env i (ticker article)) with
      | None => update_loop env (S i) pending' d updated_count
      | Some price_data =>
          let gap := (claimed_percentage article
                      - PriceTracker.actual_movement_pct price_data)%float in
          let (d1, _) :=
            add_price_snapshot d (check_time env i) (id article)
              (PriceTracker.previous_close price_data)
              (PriceTracker.current_price price_data)
              (PriceTracker.actual_movement_pct price_data) gap in
          let status :=
            PriceTracker.determine_status (claimed_percentage article)
              (PriceTracker.actual_movement_pct price_data)
              (direction article) (is_market_closed env) in
          update_loop env (S i) pending'
            (update_article_status d1 (id article) status) (S updated_count)
      end
  end.

(** [update_prices()]: the new database and [updated_count]. *)
Definition update_prices (env : refresh_env) (d : db) : db * nat :=
  let pending_articles := get_pending_articles d in
  update_loop env 0 pending_articles d 0.

(** The cycles that [main] starts: "Collect Articles" runs a collection
    cycle; "Refresh Now" and the automatic refresh run a refresh cycle. *)
Inductive event : Type :=
| Collect (env : collect_env) (today : string) (arts : list scraped)
| Refresh (env : refresh_env).

Definition step (fromisoformat : string -> option datetime) (d : db)
    (ev : event) : db :=
  match ev with
  | Collect env today arts => fst (collect_articles fromisoformat env today arts d)
  | Refresh env => fst (update_prices env d)
  end.

(** The database after a sequence of cycles. *)
Definition run (fromisoformat : string -> option datetime) (evs : list event)
    (d : db) : db :=
  fold_left (step fromisoformat) evs d.

End App.

(* ================================================================== *)
(** * The specification's vocabulary *)
(* ================================================================== *)

Module Spec.

Local Open Scope float_scope.

(** Section 4.4, rule 1: the direction of a percentage. *)
Definition dir_of (pct : float) : Dir := if 0 <? pct then up else down.

(** Section 4.4, rule 3: the gap between the two magnitudes. *)
Definition gap_of (claimed actual : float) : float :=
  abs (abs claimed - abs actual).

(** [x] is at most [y], as floats compare. *)
Definition at_most (x y : float) : Prop := (x <=? y) = true.

Definition mismatch_at_close (claimed actual : float) (marketClosed : bool) : Prop :=
  dir_of claimed <> dir_of actual /\ marketClosed = true.

Definition within (claimed actual bound : float) : Prop :=
  at_most (gap_of claimed actual) bound /\ dir_of claimed = dir_of actual.

(** Section 4.4, the ordered rules 2 and 4 to 7 of [classify]: each rule
    applies when none of the rules before it does. *)
Inductive classify (claimed actual : float) (marketClosed : bool)
    : Status -> Prop :=
| rule2 :
    mismatch_at_close claimed actual marketClosed ->
    classify claimed actual marketClosed MISS
| rule4 :
    ~ mismatch_at_close claimed actual marketClosed ->
    within claimed actual 5 ->
    classify claimed actual marketClosed HIT
| rule5 :
    ~ mismatch_at_close claimed actual marketClosed ->
    ~ within claimed actual 5 ->
    within claimed actual 10 ->
    classify claimed actual marketClosed
      (if marketClosed then PARTIAL else PENDING)
| rule6 :
    ~ mismatch_at_close claimed actual marketClosed ->
    ~ within claimed actual 5 ->
    ~ within claimed actual 10 ->
    marketClosed = true ->
    classify claimed actual marketClosed MISS
| rule7 :
    ~ mismatch_at_close claimed actual marketClosed ->
    ~ within claimed actual 5 ->
    ~ within claimed actual 10 ->
    marketClosed <> true ->
    classify claimed actual marketClosed PENDING.

(** ** The store *)

Import PyDatetime Database.
Local Open Scope Z_scope.

(** What the schema enforces on the articles: [id] is a primary key handed
    out by [AUTOINCREMENT], and [article_url] is [UNIQUE]. *)
Definition schema_ok (d : db) : Prop :=
  NoDup (map id (articles d)) /\
  NoDup (map article_url (articles d)) /\
  Forall (fun a => 0 < id a <= articles_seq d) (articles d) /\
  0 <= articles_seq d.

(** The stored status of the prediction with a given id. *)
Definition status_of (d : db) (i : Z) : option Status :=
  option_map status (find (fun a => id a =? i) (articles d)).


(** Section 4.5: a stored prediction duplicates a new claim when it has the
    same ticker and collection date, a claimed percentage within 3 points,
    and a timestamp within 2 hours of the claim's. *)
Definition hours_between (t1 t2 : datetime) : option float :=
  match sub t1 t2 with
  | Some delta => Some (abs (total_seconds delta / 3600))%float
  | None => None
  end.

Definition duplicate_of (fromisoformat : string -> option datetime)
    (ticker : string) (claimedPercentage : float) (timestamp : datetime)
    (collectionDate : string) (existing : article) : Prop :=
  Database.ticker existing = ticker /\
  Database.collection_date existing = collectionDate /\
  at_most (abs (Database.claimed_percentage existing - claimedPercentage)) 3 /\
  exists (t : datetime) (h : float),
    fromisoformat (article_timestamp existing) = Some t /\
    hours_between timestamp t = Some h /\ at_most h 2.






(** ** The exclusion phrases of section 4.1 *)

(** Hedging language. *)
Definition hedge_phrases : list string := [
  "could surge"; "could jump"; "could rise"; "could gain";
  "might surge"; "might jump"; "might rise"; "might gain";
  "may surge"; "may jump"; "may rise"; "may gain";
  "expected to"; "analysts predict"; "price target"
]%string.

(** Stale references and the past tense. *)
Definition stale_phrases : list string := [
  "yesterday"; "last week"; "last month"; "last quarter";
  "surged last"; "dropped last"
]%string.

End Spec.

(* ================================================================== *)
(** * Sample data *)
(* ================================================================== *)

Module Examples.

Import PyDatetime Database App.
Local Open Scope string_scope.

(** Every ticker is valid; the clock reads 2024-01-15 10:30:00. *)
Definition clock_1030 : Z := ((738900 * 24 + 10) * 60 + 30) * 60 * 1000000.

Definition all_valid : collect_env := CollectEnv (fun _ _ => true) (fun _ => clock_1030).

(** Prices are available for every ticker: from 100 to [current]. *)
Definition priced (closed : bool) (current : float) : refresh_env :=
  RefreshEnv closed (fun _ _ => Some 100%float) (fun _ _ => Some current)
    (fun _ => "2024-01-15T11:00:00").





(** One stored claim, as the scraper writes it. *)
Definition nvda_db : db :=
  fst (add_article init_database "NVDA" 24 "up" "2024-01-15T10:00:00-05:00"
         "Yahoo Finance" "https://news.example/a" "NVDA surges 24%" "2024-01-15").

(** A second claim on the same ticker, 50 minutes later. *)
Definition nvda_again : scraped :=
  Scraped "NVDA" 26 "up" "NVDA jumps 26%" "https://news.example/b"
    "MarketWatch" "2024-01-15T10:50:00-05:00".

(** The same claim three hours later. *)
Definition nvda_later : scraped :=
  Scraped "NVDA" 24 "up" "NVDA jumps 24%" "https://news.example/c"
    "MarketWatch" "2024-01-15T13:00:00-05:00".


(** The stored claim after a refresh that saw the price at 124: a HIT. *)
Definition hit_db : db := fst (update_prices (priced false 124) nvda_db).

(** Later cycles: a refresh, a collection, a refresh after the close. *)
Definition later_cycles : list event := [
  Refresh (priced false 110);
  Collect all_valid "2024-01-15" [nvda_again];
  Refresh (priced true 90)
].

(** Two stored claims; the timestamp of the first cannot be read. *)
Definition mixed_db : db :=
  fst (add_article
         (fst (add_article init_database "NVDA" 25 "up" "n/a"
                 "Benzinga" "https://news.example/e" "NVDA soars 25%" "2024-01-15"))
         "NVDA" 24 "up" "2024-01-15T10:00:00-05:00"
         "Yahoo Finance" "https://news.example/a" "NVDA surges 24%" "2024-01-15").

(** A headline with a movement claim and a hedge. *)
Definition hedged_headline : string :=
  "AAPL surges 25% as analysts predict more gains".

End Examples.


(* ================================================================== *)
(** * price_tracker.py: the market clock *)
(* ================================================================== *)

Module MarketClock.

Import PyDatetime.
Local Open Scope Z_scope.

(** The clock readings are aware datetimes of one time zone object; Python
    compares and subtracts them by their wall-clock readings. *)

Definition day_us : Z := 86400000000.

(** [date.toordinal()], and the time since midnight in microseconds *)
Definition toordinal (t : datetime) : Z := wall_us t / day_us.
Definition time_of_day (t : datetime) : Z := wall_us t mod day_us.

(** [t.weekday()]: Monday is 0, Sunday is 6. *)
Definition weekday (t : datetime) : Z := (toordinal t + 6) mod 7.

(** [t.hour] and [t.minute] *)
Definition hour (t : datetime) : Z := time_of_day t / 3600000000.
Definition minute (t : datetime) : Z := (time_of_day t / 60000000) mod 60.

(** [t.replace(hour=hh, minute=mm, second=0, microsecond=0)] *)
Definition replace_time (t : datetime) (hh mm : Z) : datetime :=
  Datetime (toordinal t * day_us + time_us hh mm 0 0) (utcoffset t).

(** The ordinal of 9999-12-31, the last date. *)
Definition max_ordinal : Z := 3652059.

(** [t + timedelta(days=k)]: the same reading [k] days later, with the same
    time zone object; [None] for the [OverflowError] past the last date. *)
Definition add_days (t : datetime) (k : Z) : option datetime :=
  if toordinal t + k <=? max_ordinal
  then Some (Datetime (wall_us t + k * day_us) (utcoffset t))
  else None.

(** [a < b] and [a >= b] *)
Definition before (a b : datetime) : bool := wall_us a <? wall_us b.

(** [is_market_closed()], on its reading [now] of the clock *)
Definition is_market_closed (now : datetime) : bool :=
  if 5 <=? weekday now then true
  else
    let market_open := replace_time now 9 30 in
    let market_close := replace_time now 16 0 in
    if before now market_open || negb (before now market_close) then true
    else false.

(** [should_end_tracking()], on its reading of the clock *)
Definition should_end_tracking (now : datetime) : option bool :=
  let midnight := replace_time now 0 0 in
  match add_days midnight 1 with
  | None => None
  | Some next_midnight => Some (negb (before now next_midnight))
  end.

(** The dictionary that [get_market_status] returns. *)
Record market_status : Type := MarketStatus {
  status : string;
  is_closed : bool;
  current_time : datetime;
  next_change : datetime
}.

(** [get_market_status()].  The function reads the clock ([now]) and then
    calls [is_market_closed()], which reads it again ([now']). *)
Definition get_market_status (now now' : datetime) : option market_status :=
  let is_closed := is_market_closed now' in
  let result :=
    if 5 <=? weekday now then
      let days_to_monday := (7 - weekday now) mod 7 in
      let days_to_monday := if days_to_monday =? 0 then 1 else days_to_monday in
      match add_days now days_to_monday with
      | None => None
      | Some next_open => Some (replace_time next_open 9 30, "Weekend"%string)
      end
    else if is_closed then
      if (hour now <? 9) || ((hour now =? 9) && (minute now <? 30))
      then Some (replace_time now 9 30, "Pre-Market"%string)
      else
        match add_days now 1 with
        | None => None
        | Some tomorrow =>
            let next_open := replace_time tomorrow 9 30 in
            if 5 <=? weekday next_open then
              let days_to_add := (7 - weekday next_open) mod 7 in
              let days_to_add := if days_to_add =? 0 then 1 else days_to_add in
              match add_days next_open days_to_add with
              | None => None
              | Some next_open' => Some (next_open', "After-Hours"%string)
              end
            else Some (next_open, "After-Hours"%string)
        end
    else Some (replace_time now 16 0, "Market Open"%string) in
  match result with
  | None => None
  | Some (next_open, status) => Some (MarketStatus status is_closed now next_open)
  end.

(** [get_previous_close(ticker)], on the closing prices [hist] of the last
    sessions (oldest first) that the price service returns, and on its
    reading of the clock; [None] when there is no price. *)
Definition get_previous_close (hist : list float) (now : datetime)
    : option float :=
  match hist with
  | [] => None
  | _ =>
      let current_hour := hour now in
      if 16 <=? current_hour
      then Some (last hist 0%float)
      else if (2 <=? Z.of_nat (List.length hist))
           then Some (nth (List.length hist - 2) hist 0%float)
           else Some (last hist 0%float)
  end.

End MarketClock.

(* ================================================================== *)
(** * database.py: the daily statistics *)
(* ================================================================== *)

Module Reports.

Import Database.
Local Open Scope nat_scope.

(** The dictionary that [get_daily_stats] returns. *)
Record daily_stats : Type := DailyStats {
  total_predictions : nat;
  hits : nat;
  misses : nat;
  partials : nat;
  pending : nat;
  hit_rate : float;
  avg_predicted : float
}.

(** [SUM(CASE WHEN status = s THEN 1 ELSE 0 END)] over the selected rows *)
Definition count_status (s : Status) (rows : list article) : nat :=
  List.length (filter (fun a => Status_eqb (status a) s) rows).

(** The rows of one collection date: [WHERE collection_date = ?] *)
Definition rows_of (date : string) (d : db) : list article :=
  filter (fun a => String.eqb (collection_date a) date) (articles d).

Section Stats.

(** SQLite's [AVG] over a column of reals, [None] for the NULL it yields
    on no row. *)
Variable sqlite_avg : list float -> option float.

(** [x or 0] on an optional float: 0 for [None] and for a zero. *)
Definition or_zero (x : option float) : float :=
  match x with
  | Some v => if (v =? 0)%float then 0%float else v
  | None => 0%float
  end.

(** [get_daily_stats(date)] *)
Definition get_daily_stats (d : db) (date : string) : daily_stats :=
  let rows := rows_of date d in
  let total := List.length rows in
  let hits := count_status HIT rows in
  let misses := count_status MISS rows in
  let partials := count_status PARTIAL rows in
  let pending := count_status PENDING rows in
  let avg_predicted := or_zero (sqlite_avg (map claimed_percentage rows)) in
  let hit_rate :=
    if 0 <? total
    then (PyFloat.int_truediv (Z.of_nat hits) (Pos.of_nat total) * 100)%float
    else 0%float in
  DailyStats total hits misses partials pending hit_rate avg_predicted.

End Stats.

End Reports.

(* ================================================================== *)
(** * How a cycle may change a stored prediction *)
(* ================================================================== *)

Module Frames.

Import Database App.

(** The statuses that the classifier can return for a given market state. *)
Definition written (closed : bool) (s : Status) : Prop :=
  exists (c a : float) (dir : string),
    s = PriceTracker.determine_status c a dir closed.

(** [a'] is the stored prediction [a] after a refresh cycle: nothing but the
    status differs, and the status differs only if [a] was pending and the
    classifier returned the new status. *)
Definition refreshed (closed : bool) (a a' : article) : Prop :=
  a' = set_status (status a') a /\
  (status a' = status a \/ (status a = PENDING /\ written closed (status a'))).

(** A snapshot as the refresh cycle stores it for the pending prediction [p]:
    the movement is computed from the two prices, the gap from the claim. *)
Definition snapshot_of (p : article) (s : snapshot) : Prop :=
  article_id s = id p /\
  actual_movement_pct s
    = PriceTracker.calculate_movement (previous_close s) (current_price s) /\
  gap s = (claimed_percentage p - actual_movement_pct s)%float.

(** A stored prediction made today from an entry of the feed. *)
Definition stored_from (today : string) (arts : list scraped) (x : article)
    : Prop :=
  status x = PENDING /\ collection_date x = today /\
  exists s, In s arts /\ ticker x = s_ticker s /\
            claimed_percentage x = s_claimed_percentage s /\
            article_timestamp x = s_article_timestamp s /\
            article_url x = s_article_url s.

(** The stored prediction with a given id. *)
Definition find_article (d : db) (i : Z) : option article :=
  find (fun a => (id a =? i)%Z) (articles d).

End Frames.

(* ================================================================== *)
(** * Sample clock readings *)
(* ================================================================== *)

Module ClockExamples.

Import PyDatetime MarketClock.
Local Open Scope Z_scope.

(** Friday 2024-01-19, 17:00, Eastern time. *)
Definition friday_5pm : datetime :=
  Datetime (738904 * day_us + time_us 17 0 0 0) (Some (-18000000000)).

(** The following Monday, 09:30. *)
Definition monday_930 : datetime :=
  Datetime (738907 * day_us + time_us 9 30 0 0) (Some (-18000000000)).

End ClockExamples.

(* ================================================================== *)
(** * More sample data *)
(* ================================================================== *)

Module Samples.

Import PyDatetime Database App.
Local Open Scope string_scope.

(** The row of [Examples.hit_db]. *)
Definition hit_row : article :=
  Article 1 "NVDA" 24 "up" "2024-01-15T10:00:00-05:00" "Yahoo Finance"
    "https://news.example/a" "NVDA surges 24%" HIT false "2024-01-15".

(** Two predictions on one ticker, 50 minutes apart, and their timestamps. *)
Definition row_a : article :=
  Article 1 "NVDA" 24 "up" "2024-01-15T10:00:00-05:00" "Yahoo Finance"
    "https://news.example/a" "NVDA surges 24%" PENDING false "2024-01-15".

Definition row_b : article :=
  Article 2 "NVDA" 26 "up" "2024-01-15T10:50:00-05:00" "MarketWatch"
    "https://news.example/b" "NVDA jumps 26%" PENDING true "2024-01-15".

Definition time_a : datetime :=
  Datetime 63840996000000000 (Some (-18000000000)%Z).

Definition time_b : datetime :=
  Datetime 63840999000000000 (Some (-18000000000)%Z).

(** A statistics query without an average. *)
Definition no_avg (_ : list float) : option float := None.

End Samples.
(* ================================================================== *)
(** * What a match says about the text *)
(* ================================================================== *)

Module ReSem.

Import Re.
Local Open Scope nat_scope.
Local Open Scope string_scope.




(** [st'] is [st] after the text [w]. *)
Definition ahead (w : string) (st st' : mstate) : Prop :=
  rest st = w ++ rest st' /\ pos st' = pos st + String.length w.












End ReSem.

(* ================================================================== *)
(** * Theorems: the price tracker *)
(* ================================================================== *)

Module PriceTrackerFacts.

Import PriceTracker Spec.
Local Open Scope float_scope.

Lemma Dir_eqb_eq (a b : Dir) : Dir_eqb a b = true <-> a = b.
Proof. destruct a, b; simpl; split; congruence. Qed.

Lemma Dir_eqb_neq (a b : Dir) : Dir_eqb a b = false <-> a <> b.
Proof. destruct a, b; simpl; split; congruence. Qed.

(** The classifier as a decision list over the three conditions the rules
    name. *)
Lemma determine_status_cases (c a : float) (d : string) (m : bool) :
  determine_status c a d m =
    if negb (Dir_eqb (dir_of c) (dir_of a)) && m then MISS
    else if (gap_of c a <=? 5) && Dir_eqb (dir_of c) (dir_of a) then HIT
    else if (gap_of c a <=? 10) && Dir_eqb (dir_of c) (dir_of a)
         then (if m then PARTIAL else PENDING)
    else if m then MISS else PENDING.
Proof. reflexivity. Qed.

Lemma mismatch_reflect (c a : float) (m : bool) :
  negb (Dir_eqb (dir_of c) (dir_of a)) && m = true <-> mismatch_at_close c a m.
Proof.
  unfold mismatch_at_close.
  rewrite andb_true_iff, negb_true_iff, Dir_eqb_neq. tauto.
Qed.

Lemma within_reflect (c a b : float) :
  (gap_of c a <=? b) && Dir_eqb (dir_of c) (dir_of a) = true <-> within c a b.
Proof.
  unfold within, at_most. rewrite andb_true_iff, Dir_eqb_eq. tauto.
Qed.

(** The rules of the specification pick one status. *)
Lemma classify_functional (c a : float) (m : bool) (s1 s2 : Status) :
  classify c a m s1 -> classify c a m s2 -> s1 = s2.
Proof.
  intros H1 H2; destruct H1; destruct H2; try reflexivity; try tauto; try congruence.
Qed.

Lemma determine_status_classify (c a : float) (d : string) (m : bool) :
  classify c a m (determine_status c a d m).
Proof.
  rewrite determine_status_cases.
  destruct (negb (Dir_eqb (dir_of c) (dir_of a)) && m) eqn:E2.
  - apply rule2. now apply mismatch_reflect.
  - assert (N2 : ~ mismatch_at_close c a m)
      by (rewrite <- mismatch_reflect; congruence).
    destruct ((gap_of c a <=? 5) && Dir_eqb (dir_of c) (dir_of a)) eqn:E4.
    + apply rule4; [exact N2 | now apply within_reflect].
    + assert (N4 : ~ within c a 5)
        by (rewrite <- within_reflect; congruence).
      destruct ((gap_of c a <=? 10) && Dir_eqb (dir_of c) (dir_of a)) eqn:E5.
      * apply rule5; [exact N2 | exact N4 | now apply within_reflect].
      * assert (N5 : ~ within c a 10)
          by (rewrite <- within_reflect; congruence).
        destruct m.
        -- now apply rule6.
        -- apply rule7; auto; congruence.
Qed.

(** C1. For all claimed and actual percentages, directions and market
    flags, the status that [determine_status] returns is the one that the
    ordered rules of the specification's [classify] assign: MISS on a direction
    mismatch at close; otherwise HIT within 5 points in the same direction;
    otherwise, within 10 points in the same direction, PARTIAL at close and
    PENDING before; otherwise MISS at close and PENDING before. *)
Theorem determine_status_follows_rules :
  forall (c a : float) (d : string) (m : bool) (s : Status),
    classify c a m s <-> determine_status c a d m = s.
Proof.
  intros c a d m s; split.
  - intros H. eapply classify_functional; [apply determine_status_classify | exact H].
  - intros <-. apply determine_status_classify.
Qed.

(** C9. With the market closed the classifier never answers PENDING: the
    status is HIT, PARTIAL or MISS. *)
Theorem closed_market_is_terminal :
  forall (c a : float) (d : string),
    (determine_status c a d true = HIT \/
     determine_status c a d true = PARTIAL \/
     determine_status c a d true = MISS) /\
    determine_status c a d true <> PENDING.
Proof.
  intros c a d. rewrite determine_status_cases.
  destruct (negb (Dir_eqb (dir_of c) (dir_of a)) && true);
    [split; [tauto | discriminate]|].
  destruct ((gap_of c a <=? 5) && Dir_eqb (dir_of c) (dir_of a));
    [split; [tauto | discriminate]|].
  destruct ((gap_of c a <=? 10) && Dir_eqb (dir_of c) (dir_of a));
    (split; [tauto | discriminate]).
Qed.

(** C10. The status does not depend on the direction argument. *)
Theorem direction_argument_is_ignored :
  forall (c a : float) (m : bool) (d1 d2 : string),
    determine_status c a d1 m = determine_status c a d2 m.
Proof. intros. rewrite !determine_status_cases. reflexivity. Qed.

(** The examples of the specification's section 8. *)
Example classify_hit_intraday : determine_status 25 23 "up" false = HIT.
Proof. reflexivity. Qed.

Example classify_pending_open : determine_status 25 12 "up" false = PENDING.
Proof. reflexivity. Qed.

Example classify_miss_closed : determine_status 25 12 "up" true = MISS.
Proof. reflexivity. Qed.

Example classify_miss_opposite : determine_status 25 (-5) "up" true = MISS.
Proof. reflexivity. Qed.

Example classify_partial_closed : determine_status 25 17 "up" true = PARTIAL.
Proof. reflexivity. Qed.

(** A NaN movement is a miss at close and pending before. *)
Example classify_nan : determine_status 25 nan "up" true = MISS
                       /\ determine_status 25 nan "up" false = PENDING.
Proof. split; reflexivity. Qed.

(** ** The movement *)

(** [previous_close == 0] holds of the two zeros and of nothing else. *)
Lemma eqb_zero_iff (p : float) :
  (p =? 0) = true <-> p = zero \/ p = neg_zero.
Proof.
  split.
  - rewrite eqb_spec. intros H.
    rewrite <- (SF2Prim_Prim2SF p).
    destruct (Prim2SF p) as [[|]| [|] | | [|] m e]; simpl in H;
      try discriminate; simpl; auto.
  - intros [-> | ->]; reflexivity.
Qed.

(** [round(x, 2)] on doubles with well-known roundings: the stored value of
    2.675 lies below the tie; 0.125 and 0.375 are exact ties and go to the
    even digit. *)
Example round2_examples :
  PyFloat.round2 25 = 25 /\
  PyFloat.round2 0x1.5666666666666p+1 = 0x1.55c28f5c28f5cp+1 /\
  PyFloat.round2 0.125 = 0x1.eb851eb851eb8p-4 /\
  PyFloat.round2 0.375 = 0x1.851eb851eb852p-2 /\
  PyFloat.round2 nan = nan /\
  PyFloat.round2 infinity = infinity /\
  PyFloat.round2 (-0x1p-10) = neg_zero.
Proof. repeat split; vm_compute; reflexivity. Qed.


(** A movement of one third, and a fall of one seventh. *)
Example calculate_movement_examples :
  calculate_movement 3 4 = 0x1.0aa3d70a3d70ap+5 /\   (* 33.33 *)
  calculate_movement 7 6 = (-0x1.c947ae147ae14p+3).   (* -14.29 *)
Proof. split; vm_compute; reflexivity. Qed.

End PriceTrackerFacts.

(* ================================================================== *)
(** * Theorems: the store *)
(* ================================================================== *)

Module StoreFacts.

Import PyDatetime Database Spec.
Local Open Scope Z_scope.

(** ** The two updates keep ids, urls and the sequence *)

Lemma map_id_update (f : article -> article) (k : Z) (l : list article) :
  (forall a, id (f a) = id a) ->
  map id (map (fun a => if id a =? k then f a else a) l) = map id l.
Proof.
  intros Hf. rewrite map_map. apply map_ext.
  intros a. destruct (id a =? k); auto.
Qed.

Lemma map_url_update (f : article -> article) (k : Z) (l : list article) :
  (forall a, article_url (f a) = article_url a) ->
  map article_url (map (fun a => if id a =? k then f a else a) l)
  = map article_url l.
Proof.
  intros Hf. rewrite map_map. apply map_ext.
  intros a. destruct (id a =? k); auto.
Qed.

Lemma schema_ok_same_keys (d d' : db) :
  map id (articles d') = map id (articles d) ->
  map article_url (articles d') = map article_url (articles d) ->
  articles_seq d' = articles_seq d ->
  schema_ok d -> schema_ok d'.
Proof.
  intros Hi Hu Hs (Nid & Nurl & Hb & Hseq). unfold schema_ok.
  rewrite Hi, Hu, Hs. repeat split; auto.
  rewrite Forall_forall in *. intros a Ha.
  assert (Hin : In (id a) (map id (articles d)))
    by (rewrite <- Hi; now apply in_map).
  apply in_map_iff in Hin. destruct Hin as (b & Hb1 & Hb2).
  rewrite <- Hb1. now apply Hb.
Qed.

Lemma update_article_status_ok (d : db) (k : Z) (s : Status) :
  schema_ok d -> schema_ok (update_article_status d k s).
Proof.
  apply schema_ok_same_keys; simpl; auto.
  - now apply map_id_update.
  - now apply map_url_update.
Qed.

Lemma mark_as_duplicate_ok (d : db) (k : Z) :
  schema_ok d -> schema_ok (mark_as_duplicate d k).
Proof.
  apply schema_ok_same_keys; simpl; auto.
  - now apply map_id_update.
  - now apply map_url_update.
Qed.

Lemma add_price_snapshot_articles (d : db) (ts : string) (k : Z)
    (p c m g : float) :
  articles (fst (add_price_snapshot d ts k p c m g)) = articles d /\
  articles_seq (fst (add_price_snapshot d ts k p c m g)) = articles_seq d.
Proof.
  unfold add_price_snapshot.
  destruct (is_nan p || is_nan c || is_nan m || is_nan g); simpl; auto.
Qed.

Lemma add_price_snapshot_ok (d : db) (ts : string) (k : Z) (p c m g : float) :
  schema_ok d -> schema_ok (fst (add_price_snapshot d ts k p c m g)).
Proof.
  destruct (add_price_snapshot_articles d ts k p c m g) as [Ha Hs].
  apply schema_ok_same_keys; auto; now rewrite Ha.
Qed.

(** ** Insertion *)

Lemma url_taken_spec (url : string) (d : db) :
  url_taken url d = true <-> In url (map article_url (articles d)).
Proof.
  unfold url_taken. rewrite existsb_exists, in_map_iff.
  split; intros (a & H1 & H2); exists a.
  - apply String.eqb_eq in H2. auto.
  - split; auto. now apply String.eqb_eq.
Qed.

Lemma url_taken_false (url : string) (d : db) :
  url_taken url d = false <-> ~ In url (map article_url (articles d)).
Proof.
  rewrite <- url_taken_spec. destruct (url_taken url d); split; congruence.
Qed.

Lemma add_article_rejected (d : db) (t : string) (p : float)
    (dir ts src url h date : string) :
  is_nan p || url_taken url d = true ->
  add_article d t p dir ts src url h date = (d, None).
Proof. unfold add_article. now intros ->. Qed.

Lemma add_article_inserted (d : db) (t : string) (p : float)
    (dir ts src url h date : string) :
  is_nan p = false -> url_taken url d = false ->
  add_article d t p dir ts src url h date =
    (Db (articles d ++
           [Article (articles_seq d + 1) t p dir ts src url h PENDING false date])
        (price_snapshots d) (articles_seq d + 1),
     Some (articles_seq d + 1)).
Proof. unfold add_article. now intros -> ->. Qed.

Lemma NoDup_snoc {A : Type} (l : list A) (x : A) :
  NoDup l -> ~ In x l -> NoDup (l ++ [x]).
Proof.
  induction l as [|y l IH]; simpl; intros Hl Hx.
  - constructor; [tauto | constructor].
  - inversion Hl; subst. constructor.
    + rewrite in_app_iff; simpl. intros [H | [H | []]]; [tauto | subst; tauto].
    + apply IH; tauto.
Qed.

Lemma add_article_ok (d : db) (t : string) (p : float)
    (dir ts src url h date : string) :
  schema_ok d -> schema_ok (fst (add_article d t p dir ts src url h date)).
Proof.
  intros Hok. unfold add_article.
  destruct (is_nan p || url_taken url d) eqn:E; simpl; auto.
  apply orb_false_iff in E. destruct E as [_ Hurl].
  destruct Hok as (Nid & Nurl & Hb & Hseq). unfold schema_ok; simpl.
  rewrite !map_app; simpl. repeat split.
  - apply NoDup_snoc; auto.
    intros Hin. apply in_map_iff in Hin. destruct Hin as (a & H1 & H2).
    rewrite Forall_forall in Hb. specialize (Hb a H2). lia.
  - apply NoDup_snoc; auto. now apply url_taken_false.
  - apply Forall_app. split.
    + eapply Forall_impl; [|exact Hb]. simpl. intros; lia.
    + constructor; [simpl; lia | constructor].
  - lia.
Qed.

Lemma init_database_ok : schema_ok init_database.
Proof. repeat split; simpl; try constructor; lia. Qed.

Lemma nvda_db_ok : schema_ok Examples.nvda_db.
Proof. apply add_article_ok, init_database_ok. Qed.





(** The example of the specification's section 8: the same url twice on an
    empty database leaves one row. *)
Example same_url_twice :
  let d1 := fst (add_article init_database "AAPL" 25 "up" "2024-01-15T09:00:00-05:00"
                   "Test Source" "https://test.com/article1" "Test headline"
                   "2024-01-15") in
  add_article d1 "AAPL" 25 "up" "2024-01-15T09:00:00-05:00"
    "Test Source" "https://test.com/article1" "Test headline" "2024-01-15"
  = (d1, None) /\ List.length (articles d1) = 1%nat.
Proof. split; reflexivity. Qed.

End StoreFacts.

(* ================================================================== *)
(** * Theorems: the cycles *)
(* ================================================================== *)

Module CycleFacts.

Import PyDatetime Database App Spec StoreFacts.
Local Open Scope Z_scope.

(** ** Both cycles keep the schema *)

Lemma update_loop_ok (env : refresh_env) (pending : list article) :
  forall (i : nat) (d : db) (n : nat),
    schema_ok d -> schema_ok (fst (update_loop env i pending d n)).
Proof.
  induction pending as [|a pending IH]; intros i d n Hok; simpl; auto.
  destruct (PriceTracker.get_price_data _ _) as [pd|]; auto.
  destruct (add_price_snapshot _ _ _ _ _ _ _) as [d1 b] eqn:E.
  apply IH. apply update_article_status_ok.
  replace d1 with (fst (add_price_snapshot d (check_time env i) (id a)
     (PriceTracker.previous_close pd) (PriceTracker.current_price pd)
     (PriceTracker.actual_movement_pct pd)
     (claimed_percentage a - PriceTracker.actual_movement_pct pd)%float))
    by (now rewrite E).
  now apply add_price_snapshot_ok.
Qed.

Section WithParser.

Variable fromisoformat : string -> option datetime.

Lemma collect_loop_ok (env : collect_env) (today : string) (arts : list scraped) :
  forall (i : nat) (d : db) (a dc ic : nat),
    schema_ok d ->
    schema_ok (fst (collect_loop fromisoformat env today i arts d a dc ic)).
Proof.
  induction arts as [|x arts IH]; intros i d a dc ic Hok; simpl; auto.
  destruct (negb (validate_ticker env i (s_ticker x))); auto.
  destruct (add_article _ _ _ _ _ _ _ _ _) as [d1 r] eqn:E.
  assert (Hok1 : schema_ok d1).
  { replace d1 with (fst (add_article d (s_ticker x) (s_claimed_percentage x)
      (s_direction x) (s_article_timestamp x) (s_source_name x)
      (s_article_url x) (s_headline x) today)) by (now rewrite E).
    now apply add_article_ok. }
  destruct (truthy r); auto.
  destruct (nonempty _); auto.
  apply IH. now apply mark_as_duplicate_ok.
Qed.

Lemma step_ok (d : db) (ev : event) :
  schema_ok d -> schema_ok (step fromisoformat d ev).
Proof.
  destruct ev; simpl; intros Hok.
  - now apply collect_loop_ok.
  - now apply update_loop_ok.
Qed.

Lemma run_ok (evs : list event) :
  forall d, schema_ok d -> schema_ok (run fromisoformat evs d).
Proof.
  unfold run. induction evs as [|ev evs IH]; simpl; auto.
  intros d Hok. apply IH. now apply step_ok.
Qed.

End WithParser.


(** ** Stored statuses *)

Lemma find_update (f : article -> article) (k i : Z) (l : list article) :
  (forall a, id (f a) = id a) ->
  find (fun a => id a =? i) (map (fun a => if id a =? k then f a else a) l)
  = option_map (fun a => if id a =? k then f a else a)
      (find (fun a => id a =? i) l).
Proof.
  intros Hf. induction l as [|a l IH]; simpl; auto.
  assert (E : id (if id a =? k then f a else a) = id a)
    by (destruct (id a =? k); auto).
  rewrite E. destruct (id a =? i); auto.
Qed.

Lemma status_of_update_other (d : db) (k i : Z) (s : Status) :
  k <> i -> status_of (update_article_status d k s) i = status_of d i.
Proof.
  intros Hki. unfold status_of, update_article_status; simpl.
  rewrite find_update by reflexivity.
  destruct (find (fun a => id a =? i) (articles d)) as [a|] eqn:E; simpl; auto.
  apply find_some in E. destruct E as [_ E]. apply Z.eqb_eq in E.
  destruct (id a =? k) eqn:Ek; auto.
  apply Z.eqb_eq in Ek. congruence.
Qed.

Lemma status_of_mark (d : db) (k i : Z) :
  status_of (mark_as_duplicate d k) i = status_of d i.
Proof.
  unfold status_of, mark_as_duplicate; simpl.
  rewrite find_update by reflexivity.
  destruct (find (fun a => id a =? i) (articles d)) as [a|]; simpl; auto.
  destruct (id a =? k); auto.
Qed.

Lemma status_of_snapshot (d : db) (ts : string) (k : Z) (p c m g : float) (i : Z) :
  status_of (fst (add_price_snapshot d ts k p c m g)) i = status_of d i.
Proof.
  unfold status_of.
  now destruct (add_price_snapshot_articles d ts k p c m g) as [-> _].
Qed.

Lemma find_app_some {A : Type} (f : A -> bool) (l l' : list A) (a : A) :
  find f l = Some a -> find f (l ++ l') = Some a.
Proof.
  induction l as [|b l IH]; simpl; [discriminate|].
  destruct (f b); auto.
Qed.

Lemma status_of_add (d : db) (t : string) (p : float)
    (dir ts src url h date : string) (i : Z) (s : Status) :
  status_of d i = Some s ->
  status_of (fst (add_article d t p dir ts src url h date)) i = Some s.
Proof.
  unfold status_of, add_article.
  destruct (is_nan p || url_taken url d); simpl; auto.
  destruct (find (fun a => id a =? i) (articles d)) as [a|] eqn:E;
    [|discriminate].
  intros H. rewrite (find_app_some _ _ _ _ E). exact H.
Qed.

Lemma find_by_id (l : list article) (a : article) :
  NoDup (map id l) -> In a l -> find (fun b => id b =? id a) l = Some a.
Proof.
  induction l as [|b l IH]; simpl; [tauto|].
  intros Hnd Hin. inversion Hnd as [|? ? Hnot Hnd']; subst.
  destruct Hin as [-> | Hin].
  - now rewrite Z.eqb_refl.
  - destruct (id b =? id a) eqn:E.
    + apply Z.eqb_eq in E. exfalso. apply Hnot. rewrite E. now apply in_map.
    + auto.
Qed.

(** A prediction with a terminal status is not among the pending ones. *)
Lemma terminal_not_pending (d : db) (i : Z) (s : Status) :
  schema_ok d -> status_of d i = Some s -> is_terminal s = true ->
  forall a, In a (get_pending_articles d) -> id a <> i.
Proof.
  intros (Nid & _) Hs Ht a Ha Hid.
  apply filter_In in Ha. destruct Ha as [Hin Hp].
  unfold status_of in Hs. subst i.
  rewrite (find_by_id _ _ Nid Hin) in Hs. simpl in Hs.
  injection Hs as <-. unfold is_terminal in Ht. now rewrite Hp in Ht.
Qed.

(** The refresh loop writes only the statuses of the articles it is given. *)
Lemma update_loop_status (env : refresh_env) (i : Z) (pending : list article) :
  (forall a, In a pending -> id a <> i) ->
  forall (k : nat) (d : db) (n : nat),
    status_of (fst (update_loop env k pending d n)) i = status_of d i.
Proof.
  induction pending as [|a pending IH]; intros Hids k d n; simpl; auto.
  assert (Hrest : forall b, In b pending -> id b <> i)
    by (intros b Hb; apply Hids; now right).
  destruct (PriceTracker.get_price_data _ _) as [pd|]; auto.
  destruct (add_price_snapshot _ _ _ _ _ _ _) as [d1 b] eqn:E.
  rewrite IH by assumption.
  rewrite status_of_update_other by (apply Hids; now left).
  replace d1 with (fst (add_price_snapshot d (check_time env k) (id a)
     (PriceTracker.previous_close pd) (PriceTracker.current_price pd)
     (PriceTracker.actual_movement_pct pd)
     (claimed_percentage a - PriceTracker.actual_movement_pct pd)%float))
    by (now rewrite E).
  apply status_of_snapshot.
Qed.

Lemma update_prices_keeps_terminal (env : refresh_env) (d : db) (i : Z) (s : Status) :
  schema_ok d -> status_of d i = Some s -> is_terminal s = true ->
  status_of (fst (update_prices env d)) i = Some s.
Proof.
  intros Hok Hs Ht. unfold update_prices.
  rewrite update_loop_status; auto.
  now apply (terminal_not_pending d i s).
Qed.

Section WithParser2.

Variable fromisoformat : string -> option datetime.

(** The collection loop writes no status of a stored prediction. *)
Lemma collect_loop_status (env : collect_env) (today : string)
    (arts : list scraped) (i : Z) (s : Status) :
  forall (k : nat) (d : db) (a dc ic : nat),
    status_of d i = Some s ->
    status_of (fst (collect_loop fromisoformat env today k arts d a dc ic)) i
    = Some s.
Proof.
  induction arts as [|x arts IH]; intros k d a dc ic Hs; simpl; auto.
  destruct (negb (validate_ticker env k (s_ticker x))); auto.
  destruct (add_article _ _ _ _ _ _ _ _ _) as [d1 r] eqn:E.
  assert (Hs1 : status_of d1 i = Some s).
  { replace d1 with (fst (add_article d (s_ticker x) (s_claimed_percentage x)
      (s_direction x) (s_article_timestamp x) (s_source_name x)
      (s_article_url x) (s_headline x) today)) by (now rewrite E).
    now apply status_of_add. }
  destruct (truthy r); auto.
  destruct (nonempty _); auto.
  apply IH. now rewrite status_of_mark.
Qed.

(** C2. On a database that respects its schema, a prediction whose stored
    status is HIT, PARTIAL or MISS keeps that status through every later
    sequence of refresh cycles (and collection cycles): a refresh cycle
    re-classifies only the predictions it selects, those whose status is
    PENDING. *)
Theorem terminal_status_is_final :
  forall (evs : list event) (d : db) (i : Z) (s : Status),
    schema_ok d ->
    status_of d i = Some s ->
    is_terminal s = true ->
    status_of (run fromisoformat evs d) i = Some s /\
    (forall env, ~ In i (map id (get_pending_articles d)) /\
                 status_of (fst (update_prices env d)) i = Some s).
Proof.
  intros evs d i s Hok Hs Ht. split.
  - revert d Hok Hs. unfold run.
    induction evs as [|ev evs IH]; simpl; intros d Hok Hs; auto.
    apply IH.
    + now apply step_ok.
    + destruct ev as [env today arts | env]; simpl.
      * now apply collect_loop_status.
      * now apply update_prices_keeps_terminal.
  - intros env. split.
    + intros Hin. apply in_map_iff in Hin. destruct Hin as (a & Hid & Ha).
      now apply (terminal_not_pending d i s Hok Hs Ht a Ha).
    + now apply update_prices_keeps_terminal.
Qed.

End WithParser2.

(** ** The size of a refresh cycle *)






(** ** The theorems at work on sample data *)

Lemma hit_db_ok : schema_ok Examples.hit_db.
Proof. apply update_loop_ok, nvda_db_ok. Qed.

(** The stored HIT of the sample database survives the later cycles, the
    last of which runs after the close with a price that falls. *)
Lemma terminal_status_is_final_witness :
  status_of Examples.hit_db 1 = Some HIT /\
  status_of (run iso_parse Examples.later_cycles Examples.hit_db) 1 = Some HIT.
Proof.
  split; [vm_compute; reflexivity|].
  apply (proj1 (terminal_status_is_final iso_parse Examples.later_cycles
                  Examples.hit_db 1 HIT hit_db_ok eq_refl eq_refl)).
Defined.


(** The collection cycle counts a claim whose url is already stored as a
    duplicate, stores nothing, and goes on with the next claim. *)
Lemma stored_url_is_counted_as_duplicate
    (fromisoformat : string -> option datetime) (env : collect_env)
    (today : string) (i : nat) (x : scraped) (rest : list scraped) (d : db)
    (added dups invalid : nat) :
  validate_ticker env i (s_ticker x) = true ->
  url_taken (s_article_url x) d = true ->
  collect_loop fromisoformat env today i (x :: rest) d added dups invalid =
  collect_loop fromisoformat env today (S i) rest d added (S dups) invalid.
Proof.
  intros Hv Hu. simpl. rewrite Hv. simpl.
  rewrite add_article_rejected by (rewrite Hu; apply orb_true_r).
  reflexivity.
Qed.

End CycleFacts.

(* ================================================================== *)
(** * Theorems: duplicate detection *)
(* ================================================================== *)

Module DuplicateFacts.

Import PyDatetime Database App Spec StoreFacts.
Local Open Scope Z_scope.

(** ** A NaN percentage is similar to nothing *)



Section WithParser.

Variable fromisoformat : string -> option datetime.

(** ** What the scan returns *)







(** ** Insertion of a claim that has duplicates *)

Lemma mark_new_only (f : article -> article) (l : list article) (seq : Z) :
  Forall (fun a => 0 < id a <= seq) l ->
  map (fun a => if id a =? seq + 1 then f a else a) l = l.
Proof.
  induction 1 as [|a l Ha Hl IH]; simpl; auto.
  rewrite IH. destruct (id a =? seq + 1) eqn:E; auto.
  apply Z.eqb_eq in E. lia.
Qed.



(** ** Timestamps that cannot be read *)




End WithParser.

(** ** The theorems at work on sample data *)


(** The same claim three hours later is inserted and not flagged. *)
Example three_hours_apart :
  check_for_duplicates iso_parse Examples.clock_1030 Examples.nvda_db
    "NVDA" 24 "2024-01-15T13:00:00-05:00" "2024-01-15" = [] /\
  map is_duplicate
    (articles (fst (collect_articles iso_parse Examples.all_valid "2024-01-15"
                      [Examples.nvda_later] Examples.nvda_db)))
  = [false; false].
Proof. split; vm_compute; reflexivity. Qed.

(** Two hours to the microsecond are within the window, one microsecond
    more is not; the percentages may differ by 3 points, not by 3.5. *)
Example window_boundaries :
  hours_between (Datetime 7200000000 None) (Datetime 0 None) = Some 2%float /\
  within_window iso_parse (Datetime (Examples.clock_1030 + 5400000000) None)
    "2024-01-15T10:00:00" = Some true /\
  within_window iso_parse (Datetime (Examples.clock_1030 + 5400000001) None)
    "2024-01-15T10:00:00" = Some false /\
  check_for_duplicates iso_parse Examples.clock_1030 Examples.nvda_db
    "NVDA" 27 "2024-01-15T10:50:00-05:00" "2024-01-15" = [1] /\
  check_for_duplicates iso_parse Examples.clock_1030 Examples.nvda_db
    "NVDA" 27.5 "2024-01-15T10:50:00-05:00" "2024-01-15" = [].
Proof. repeat split; vm_compute; reflexivity. Qed.



Example unreadable_row_is_skipped :
  check_for_duplicates iso_parse Examples.clock_1030 Examples.mixed_db
    "NVDA" 26 "2024-01-15T10:50:00-05:00" "2024-01-15" = [2].
Proof. vm_compute. reflexivity. Qed.


End DuplicateFacts.

(* ================================================================== *)
(** * Theorems: the claim extractor *)
(* ================================================================== *)

Module ScraperFacts.

Import Re Scraper Spec.
Local Open Scope string_scope.

(** ** Strings *)

Lemma append_nil_r (s : string) : s ++ "" = s.
Proof. induction s; simpl; congruence. Qed.

Lemma append_assoc (a b c : string) : (a ++ b) ++ c = a ++ (b ++ c).
Proof. induction a; simpl; congruence. Qed.

Lemma starts_with_split (w s : string) :
  starts_with w s = true <-> exists post, s = w ++ post.
Proof.
  revert s. induction w as [|x w IH]; intros s; simpl.
  - split; eauto.
  - destruct s as [|c s]; simpl.
    + split; [discriminate | intros (post & H); discriminate].
    + rewrite andb_true_iff, IH. split.
      * intros (Hx & post & ->). apply Ascii.eqb_eq in Hx. subst. eauto.
      * intros (post & H). injection H as -> ->.
        split; [apply Ascii.eqb_refl | eauto].
Qed.

Lemma contains_split (w s : string) :
  contains w s = true <-> exists pre post, s = pre ++ w ++ post.
Proof.
  induction s as [|c s IH].
  - simpl. rewrite orb_false_r, starts_with_split. split.
    + intros (post & H). exists "", post. exact H.
    + intros (pre & post & H). destruct pre; simpl in H; [eauto | discriminate].
  - change (contains w (String c s))
      with (starts_with w (String c s) || contains w s).
    rewrite orb_true_iff, starts_with_split, IH. split.
    + intros [(post & H) | (pre & post & ->)].
      * exists "", post. exact H.
      * exists (String c pre), post. reflexivity.
    + intros (pre & post & H). destruct pre as [|c' pre]; simpl in H.
      * left. eauto.
      * injection H as -> ->. right. eauto.
Qed.

Lemma lower_append (a b : string) : lower (a ++ b) = lower a ++ lower b.
Proof. induction a; simpl; congruence. Qed.

(** A text that contains a lower-case phrase contains it after [lower()]. *)
Lemma contains_lower (w s : string) :
  lower w = w -> contains w s = true -> contains w (lower s) = true.
Proof.
  intros Hw H. apply contains_split in H. destruct H as (pre & post & ->).
  apply contains_split. exists (lower pre), (lower post).
  now rewrite !lower_append, Hw.
Qed.

(** ** The decision procedure for the words of a pattern *)

Lemma substring_0_all (w : string) : substring 0 (String.length w) w = w.
Proof. induction w; simpl; congruence. Qed.

Lemma cut_append (i : nat) (w : string) :
  (i <= String.length w)%nat -> fst (cut i w) ++ snd (cut i w) = w.
Proof.
  unfold cut; simpl. revert w.
  induction i as [|i IH]; intros w Hi; simpl.
  - destruct w; simpl; auto.
    f_equal. apply substring_0_all.
  - destruct w as [|c w]; simpl in *; [lia|].
    f_equal. apply IH. lia.
Qed.

Lemma langb_Cat (r1 r2 : regex) (w : string) :
  langb (Cat r1 r2) w =
  existsb (fun i => langb r1 (fst (cut i w)) && langb r2 (snd (cut i w)))
    (seq 0 (S (String.length w))).
Proof. reflexivity. Qed.

Lemma langb_sound (r : regex) : forall w, langb r w = true -> lang r w.
Proof.
  induction r as [|p|l|r1 IH1 r2 IH2|r1 IH1 r2 IH2|r1 IH1|p|n r1 IH1|];
    intros w.
  - simpl. apply String.eqb_eq.
  - simpl. destruct w as [|c [|]]; try discriminate. intros H. eauto.
  - simpl. apply String.eqb_eq.
  - rewrite langb_Cat. intros H.
    apply existsb_exists in H. destruct H as (i & Hi & H).
    apply andb_true_iff in H. destruct H as [H1 H2].
    apply in_seq in Hi.
    exists (fst (cut i w)), (snd (cut i w)). split; [|split]; auto.
    symmetry. apply cut_append. lia.
  - simpl. rewrite orb_true_iff. intros [H | H]; auto.
  - simpl. rewrite orb_true_iff. intros [H | H]; auto.
    left. now apply String.eqb_eq.
  - simpl. auto.
  - simpl. auto.
  - discriminate.
Qed.

(** ** The matcher finds the words of a pattern *)

Lemma or_else_some_l {A : Type} (x y : option A) : x <> None -> or_else x y <> None.
Proof. destruct x; simpl; congruence. Qed.

Lemma or_else_some_r {A : Type} (x y : option A) : y <> None -> or_else x y <> None.
Proof. destruct x; simpl; congruence. Qed.

Lemma match_lit_prefix (l : string) :
  forall (st : mstate) (post : string),
    rest st = l ++ post ->
    exists st', match_lit false l st = Some st' /\ rest st' = post.
Proof.
  induction l as [|x l IH]; intros st post H; simpl.
  - eauto.
  - rewrite H. simpl. rewrite Ascii.eqb_refl. apply IH. reflexivity.
Qed.

Lemma match_many_base {A : Type} (p : ascii -> bool) (k : mstate -> option A)
    (s : string) :
  (forall st', rest st' = s -> k st' <> None) ->
  forall n pv cs, match_many false p s n pv cs k <> None.
Proof.
  intros Hk n pv cs. destruct s as [|c s]; simpl.
  - now apply Hk.
  - destruct (p c).
    + apply or_else_some_r. now apply Hk.
    + now apply Hk.
Qed.

Lemma match_many_complete {A : Type} (p : ascii -> bool) (k : mstate -> option A)
    (w post : string) :
  all_chars p w = true ->
  (forall st', rest st' = post -> k st' <> None) ->
  forall n pv cs, match_many false p (w ++ post) n pv cs k <> None.
Proof.
  intros Hw Hk. induction w as [|c w IH]; intros n pv cs; simpl.
  - now apply match_many_base.
  - simpl in Hw. apply andb_true_iff in Hw. destruct Hw as [Hc Hw].
    rewrite Hc. apply or_else_some_l. now apply IH.
Qed.

Lemma rmatch_complete (r : regex) :
  forall (w : string), lang r w ->
  forall (A : Type) (k : mstate -> option A) (st : mstate) (post : string),
    rest st = w ++ post ->
    (forall st', rest st' = post -> k st' <> None) ->
    rmatch false r st k <> None.
Proof.
  induction r as [|p|l|r1 IH1 r2 IH2|r1 IH1 r2 IH2|r1 IH1|p|n r1 IH1|];
    intros w Hw A k st post Hst Hk; simpl in *.
  - subst w. now apply Hk.
  - destruct Hw as (c & -> & Hc). rewrite Hst. simpl. rewrite Hc.
    now apply Hk.
  - subst w. destruct (match_lit_prefix l st post Hst) as (st' & -> & Hr).
    now apply Hk.
  - destruct Hw as (w1 & w2 & -> & H1 & H2).
    apply (IH1 w1 H1 A _ st (w2 ++ post)).
    + now rewrite Hst, append_assoc.
    + intros st1 H. now apply (IH2 w2 H2 A k st1 post).
  - destruct Hw as [H | H].
    + apply or_else_some_l. now apply (IH1 w H A k st post).
    + apply or_else_some_r. now apply (IH2 w H A k st post).
  - destruct Hw as [-> | H].
    + apply or_else_some_r. now apply Hk.
    + apply or_else_some_l. now apply (IH1 w H A k st post).
  - rewrite Hst. now apply match_many_complete.
  - apply (IH1 w Hw A _ st post Hst).
    intros st1 H. apply Hk. exact H.
  - contradiction.
Qed.

Lemma search_from_complete (r : regex) (w post : string) :
  lang r w ->
  forall (pre : string) (pv : option ascii) (n : nat),
    search_from false r pv n (pre ++ w ++ post) <> None.
Proof.
  intros Hw. induction pre as [|c pre IH]; intros pv n.
  - assert (H : rmatch false r (MState n pv (w ++ post) []) (fun st => Some st)
                <> None).
    { apply (rmatch_complete r w Hw _ _ _ post); [reflexivity | discriminate]. }
    simpl ("" ++ _). destruct (w ++ post); simpl;
      destruct (rmatch _ _ _ _); congruence.
  - simpl. destruct (rmatch _ _ _ _); [discriminate | apply IH].
Qed.

(** ** The exclusion filter *)

(** A text in which an exclusion pattern finds a match yields no claim. *)
Lemma excluded_pattern_vetoes (text : string) (r : regex) :
  In r exclusion_patterns ->
  search false r (lower text) <> None ->
  extract_ticker_and_percentage text = None.
Proof.
  intros Hin Hs. unfold extract_ticker_and_percentage.
  replace (existsb _ exclusion_patterns) with true; auto.
  symmetry. apply existsb_exists. exists r. split; auto.
  destruct (search false r (lower text)); [reflexivity | congruence].
Qed.

Lemma excluded_word_vetoes (text : string) (r : regex) (w : string) :
  In r exclusion_patterns ->
  langb r w = true ->
  contains w (lower text) = true ->
  extract_ticker_and_percentage text = None.
Proof.
  intros Hin Hw Hc. apply (excluded_pattern_vetoes text r Hin).
  apply contains_split in Hc. destruct Hc as (pre & post & ->).
  apply search_from_complete. now apply langb_sound.
Qed.

(** Tries the exclusion patterns one after the other on a given phrase. *)
Ltac find_pattern ps :=
  lazymatch ps with
  | ?p :: ?ps' =>
      first [ solve [ eapply (excluded_word_vetoes _ p);
                      [ .. | eassumption ];
                      [ unfold exclusion_patterns; simpl; tauto
                      | vm_compute; reflexivity ] ]
            | find_pattern ps' ]
  end.

Ltac veto :=
  let ps := eval unfold exclusion_patterns in exclusion_patterns in
  find_pattern ps.

(** C4. A text that contains one of the hedging or stale-reference phrases,
    as it stands or after lower-casing, yields no claim: [extract] returns
    [None] whatever the movement patterns would find in the text. *)
Theorem exclusion_phrase_vetoes_text :
  forall (text phrase : string),
    In phrase (hedge_phrases ++ stale_phrases) ->
    contains phrase text = true \/ contains phrase (lower text) = true ->
    extract_ticker_and_percentage text = None.
Proof.
  intros text phrase Hin Hc.
  assert (Hl : contains phrase (lower text) = true).
  { destruct Hc as [Hc | Hc]; auto.
    apply contains_lower; auto.
    simpl in Hin.
    repeat (destruct Hin as [<- | Hin]; [reflexivity|]). contradiction. }
  clear Hc. simpl in Hin.
  repeat (destruct Hin as [<- | Hin]; [veto|]).
  contradiction.
Qed.

(** ** The extractor at work *)

(** The examples of the specification's section 8. *)
Example extract_examples :
  extract_ticker_and_percentage "AAPL surges 25% after earnings"
    = Some ("AAPL", 25%float, "up") /\
  extract_ticker_and_percentage "XYZ plunges 22% on guidance cut"
    = Some ("XYZ", (-22)%float, "down") /\
  extract_ticker_and_percentage "TSLA surges 10%" = None /\
  extract_ticker_and_percentage "analysts predict AAPL could surge 30%" = None.
Proof. repeat split; vm_compute; reflexivity. Qed.

(** Matches below the threshold are passed over; tickers are read without
    regard to case; a sign of fall anywhere in the match makes it a fall. *)
Example extract_more_examples :
  extract_ticker_and_percentage "TSLA surges 10% and GME jumps 45.25%"
    = Some ("GME", 45.25%float, "up") /\
  extract_ticker_and_percentage "Shares of $nvda  down 31.5 % today"
    = Some ("NVDA", (-31.5)%float, "down") /\
  extract_ticker_and_percentage "ABCDEF surges 25%" = None.
Proof. repeat split; vm_compute; reflexivity. Qed.

(** The movement patterns find a claim of 25% in the sample headline; the
    hedge in it vetoes the headline all the same. *)
Lemma exclusion_phrase_vetoes_text_witness :
  scan_patterns Examples.hedged_headline movement_patterns
    = Some ("AAPL", 25%float, "up") /\
  extract_ticker_and_percentage Examples.hedged_headline = None.
Proof.
  split; [vm_compute; reflexivity|].
  apply (exclusion_phrase_vetoes_text Examples.hedged_headline "analysts predict").
  - simpl. tauto.
  - left. vm_compute. reflexivity.
Defined.

End ScraperFacts.

(* ================================================================== *)
(** * Theorems: the market clock *)
(* ================================================================== *)

Module MarketClockFacts.

Import PyDatetime MarketClock.
Local Open Scope Z_scope.

Ltac clock_arith :=
  unfold before, replace_time, weekday, hour, minute, time_of_day, toordinal,
    time_us, day_us, max_ordinal in *;
  cbn [wall_us utcoffset] in *;
  repeat match goal with
         | H : context [(_ <=? _)] |- _ => revert H
         | H : context [(_ <? _)] |- _ => revert H
         | H : context [(_ =? _)] |- _ => revert H
         end;
  repeat match goal with
         | |- context [(?a <=? ?b)] => destruct (Z.leb_spec a b)
         | |- context [(?a <? ?b)] => destruct (Z.ltb_spec a b)
         | |- context [(?a =? ?b)] => destruct (Z.eqb_spec a b)
         end;
  cbn [negb orb andb]; intros;
  try discriminate; try reflexivity;
  Z.div_mod_to_equations; lia.

(** The market is open on the five working days from 09:30 to 16:00. *)
Lemma is_market_closed_false (t : datetime) :
  is_market_closed t = false <->
  weekday t < 5 /\ 34200000000 <= time_of_day t < 57600000000.
Proof.
  unfold is_market_closed. split.
  - intros H. clock_arith.
  - intros H. clock_arith.
Qed.

Lemma add_days_some (t : datetime) (k : Z) (r : datetime) :
  add_days t k = Some r ->
  wall_us r = wall_us t + k * day_us /\ utcoffset r = utcoffset t.
Proof.
  unfold add_days. destruct (_ <=? _); [|discriminate].
  intros H. injection H as <-. auto.
Qed.

(** X1. [should_end_tracking] never answers [True]: the midnight that
    follows the reading of the clock is always ahead of it. *)
Theorem should_end_tracking_never_true :
  forall now : datetime, should_end_tracking now <> Some true.
Proof.
  intros now. unfold should_end_tracking.
  destruct (add_days (replace_time now 0 0) 1) as [nm|] eqn:E; [|discriminate].
  apply add_days_some in E. destruct E as [E _].
  intros H. injection H as H. apply negb_true_iff in H.
  revert H E. clock_arith.
Qed.

(** The status away from the last days of year 9999. *)
Lemma get_market_status_total (now now' : datetime) :
  toordinal now + 3 <= max_ordinal -> get_market_status now now' <> None.
Proof.
  intros Hr. unfold get_market_status, add_days.
  destruct (5 <=? weekday now) eqn:Ew.
  - destruct (_ =? 0) eqn:E0.
    + replace (toordinal now + 1 <=? max_ordinal) with true
        by (symmetry; apply Z.leb_le; lia). discriminate.
    + replace (toordinal now + _ <=? max_ordinal) with true; [discriminate|].
      symmetry. apply Z.leb_le. revert Ew E0 Hr. clock_arith.
  - destruct (is_market_closed now'); [|discriminate].
    destruct (_ || _); [discriminate|].
    replace (toordinal now + 1 <=? max_ordinal) with true
      by (symmetry; apply Z.leb_le; lia).
    destruct (5 <=? weekday (replace_time _ 9 30)) eqn:Ew2; [|discriminate].
    destruct (_ =? 0) eqn:E0.
    + replace (_ <=? max_ordinal) with true; [discriminate|].
      symmetry. apply Z.leb_le. revert Ew Ew2 E0 Hr. clock_arith.
    + replace (_ <=? max_ordinal) with true; [discriminate|].
      symmetry. apply Z.leb_le. revert Ew Ew2 E0 Hr. clock_arith.
Qed.

(** The four outcomes of [get_market_status], when the two readings of the
    clock fall on the same side of every boundary. *)
Lemma get_market_status_cases (now now' : datetime) (r : market_status) :
  is_market_closed now' = is_market_closed now ->
  get_market_status now now' = Some r ->
  current_time r = now /\ is_closed r = is_market_closed now /\
  ( (status r = "Weekend"%string /\ 5 <= weekday now /\
     wall_us (next_change r)
       = (toordinal now + (7 - weekday now)) * day_us + 34200000000)
  \/ (status r = "Pre-Market"%string /\ weekday now < 5 /\
      time_of_day now < 34200000000 /\
      wall_us (next_change r) = toordinal now * day_us + 34200000000)
  \/ (status r = "After-Hours"%string /\ weekday now < 5 /\
      57600000000 <= time_of_day now /\
      wall_us (next_change r)
        = (toordinal now + (if weekday now =? 4 then 3 else 1)) * day_us
          + 34200000000)
  \/ (status r = "Market Open"%string /\ is_market_closed now = false /\
      wall_us (next_change r) = toordinal now * day_us + 57600000000)).
Proof.
  intros Hc. unfold get_market_status. rewrite Hc.
  destruct (5 <=? weekday now) eqn:Ew.
  - destruct (add_days now _) as [nx|] eqn:Ea; [|discriminate].
    intros H. injection H as <-. cbn [current_time is_closed status next_change].
    apply add_days_some in Ea. destruct Ea as [Ea _].
    split; [reflexivity|]. split; [reflexivity|]. left.
    split; [reflexivity|].
    revert Ew Ea. clock_arith.
  - destruct (is_market_closed now) eqn:Ecl.
    + destruct (_ || _) eqn:Eh.
      * intros H. injection H as <-. cbn [current_time is_closed status next_change].
        split; [reflexivity|]. split; [reflexivity|]. right. left.
        split; [reflexivity|].
        revert Ew Eh. clock_arith.
      * assert (Hlate : 57600000000 <= time_of_day now).
        { revert Ecl Ew Eh. unfold is_market_closed. clock_arith. }
        destruct (add_days now 1) as [tm|] eqn:Ea; [|discriminate].
        apply add_days_some in Ea. destruct Ea as [Ea _].
        destruct (5 <=? weekday (replace_time tm 9 30)) eqn:Ew2.
        -- destruct (add_days (replace_time tm 9 30) _) as [nx|] eqn:Ea2;
             [|discriminate].
           apply add_days_some in Ea2. destruct Ea2 as [Ea2 _].
           intros H. injection H as <-.
           cbn [current_time is_closed status next_change].
           split; [reflexivity|]. split; [reflexivity|]. right. right. left.
           split; [reflexivity|].
           revert Ew Ew2 Ea Ea2 Hlate. clear. clock_arith.
        -- intros H. injection H as <-.
           cbn [current_time is_closed status next_change].
           split; [reflexivity|]. split; [reflexivity|]. right. right. left.
           split; [reflexivity|].
           revert Ew Ew2 Ea Hlate. clear. clock_arith.
    + intros H. injection H as <-. cbn [current_time is_closed status next_change].
      split; [reflexivity|]. split; [reflexivity|]. right. right. right.
      split; [reflexivity|]. split; [reflexivity|].
      clock_arith.
Qed.

Lemma is_market_closed_true (t : datetime) :
  is_market_closed t = true <->
  ~ (weekday t < 5 /\ 34200000000 <= time_of_day t < 57600000000).
Proof.
  rewrite <- is_market_closed_false.
  destruct (is_market_closed t); split; congruence.
Qed.

Ltac clock_facts :=
  unfold weekday, time_of_day, toordinal, day_us in *;
  Z.div_mod_to_equations; lia.

(** X2. The label of [get_market_status] tells where the clock stands:
    "Market Open" exactly when the market is not closed, "Weekend" exactly on
    Saturdays and Sundays, "Pre-Market" exactly before 09:30 on a working day
    and "After-Hours" exactly from 16:00 on a working day; [is_closed] is the
    answer of [is_market_closed].  (The two readings of the clock are taken
    on the same side of every boundary.) *)
Theorem market_status_label :
  forall (now now' : datetime) (r : market_status),
    is_market_closed now' = is_market_closed now ->
    get_market_status now now' = Some r ->
    is_closed r = is_market_closed now /\
    (status r = "Market Open"%string <-> is_market_closed now = false) /\
    (status r = "Weekend"%string <-> 5 <= weekday now) /\
    (status r = "Pre-Market"%string <->
       weekday now < 5 /\ time_of_day now < 34200000000) /\
    (status r = "After-Hours"%string <->
       weekday now < 5 /\ 57600000000 <= time_of_day now).
Proof.
  intros now now' r Hc Hr.
  destruct (get_market_status_cases now now' r Hc Hr) as (_ & Hcl & H).
  split; [exact Hcl|].
  destruct H as [(Hs & Hw & _) | [(Hs & Hw & Ht & _) | [(Hs & Hw & Ht & _) | (Hs & Ho & _)]]];
    rewrite Hs.
  - assert (Hn : is_market_closed now = true)
      by (apply is_market_closed_true; lia).
    repeat split; intros; try discriminate; try congruence; try lia.
  - assert (Hn : is_market_closed now = true)
      by (apply is_market_closed_true; lia).
    repeat split; intros; try discriminate; try congruence; try lia.
  - assert (Hn : is_market_closed now = true)
      by (apply is_market_closed_true; lia).
    repeat split; intros; try discriminate; try congruence; try lia.
  - pose proof (proj1 (is_market_closed_false now) Ho) as (Hw & Ht1 & Ht2).
    repeat split; intros; try discriminate; try congruence; try lia.
Qed.

(** X3. The time that [get_market_status] announces is the next change of
    the market: it lies ahead of the clock, the market is open then if it is
    closed now and closed then if it is open now, and at no moment before
    does the answer of [is_market_closed] differ from the present one. *)
Theorem next_change_is_the_next_change :
  forall (now now' : datetime) (r : market_status),
    is_market_closed now' = is_market_closed now ->
    get_market_status now now' = Some r ->
    wall_us now < wall_us (next_change r) /\
    is_market_closed (next_change r) = negb (is_market_closed now) /\
    (forall t : datetime,
       wall_us now <= wall_us t < wall_us (next_change r) ->
       is_market_closed t = is_market_closed now).
Proof.
  intros now now' r Hc Hr.
  destruct (get_market_status_cases now now' r Hc Hr) as (_ & _ & H).
  destruct H as [(_ & Hw & Hn) | [(_ & Hw & Ht & Hn) | [(_ & Hw & Ht & Hn) | (_ & Ho & Hn)]]].
  - assert (Hnow : is_market_closed now = true)
      by (apply is_market_closed_true; lia).
    rewrite Hnow. split; [|split].
    + clock_facts.
    + apply is_market_closed_false. clock_facts.
    + intros t Ht. apply is_market_closed_true. clock_facts.
  - assert (Hnow : is_market_closed now = true)
      by (apply is_market_closed_true; lia).
    rewrite Hnow. split; [|split].
    + clock_facts.
    + apply is_market_closed_false. clock_facts.
    + intros t Ht'. apply is_market_closed_true. clock_facts.
  - assert (Hnow : is_market_closed now = true)
      by (apply is_market_closed_true; lia).
    rewrite Hnow. destruct (Z.eqb_spec (weekday now) 4) as [E4 | E4];
      (split; [|split]).
    + clock_facts.
    + apply is_market_closed_false. clock_facts.
    + intros t Ht'. apply is_market_closed_true. clock_facts.
    + clock_facts.
    + apply is_market_closed_false. clock_facts.
    + intros t Ht'. apply is_market_closed_true. clock_facts.
  - pose proof (proj1 (is_market_closed_false now) Ho) as (Hw & Ht1 & Ht2).
    rewrite Ho. split; [|split].
    + clock_facts.
    + apply is_market_closed_true. clock_facts.
    + intros t Ht'. apply is_market_closed_false. clock_facts.
Qed.

(** On a Friday at 17:00 the status is "After-Hours" and the next change
    is the opening of Monday, 09:30. *)
Lemma friday_status :
  get_market_status ClockExamples.friday_5pm ClockExamples.friday_5pm
  = Some (MarketStatus "After-Hours" true ClockExamples.friday_5pm
            ClockExamples.monday_930).
Proof. vm_compute. reflexivity. Qed.

Lemma market_status_label_witness :
  "After-Hours"%string = "After-Hours"%string <->
  weekday ClockExamples.friday_5pm < 5 /\
  57600000000 <= time_of_day ClockExamples.friday_5pm.
Proof.
  exact (proj2 (proj2 (proj2 (proj2
    (market_status_label ClockExamples.friday_5pm ClockExamples.friday_5pm
       _ eq_refl friday_status))))).
Defined.

Lemma next_change_is_the_next_change_witness :
  wall_us ClockExamples.friday_5pm < wall_us ClockExamples.monday_930 /\
  is_market_closed ClockExamples.monday_930
    = negb (is_market_closed ClockExamples.friday_5pm) /\
  (forall t : datetime,
     wall_us ClockExamples.friday_5pm <= wall_us t
       < wall_us ClockExamples.monday_930 ->
     is_market_closed t = is_market_closed ClockExamples.friday_5pm).
Proof.
  exact (next_change_is_the_next_change ClockExamples.friday_5pm
           ClockExamples.friday_5pm _ eq_refl friday_status).
Defined.

(** ** The baseline of the movement *)

Lemma last_In {A : Type} (l : list A) (x : A) : l <> [] -> In (last l x) l.
Proof.
  induction l as [|a [|b l] IH]; intros H; [congruence | now left | right].
  apply IH. discriminate.
Qed.

(** X18. [get_previous_close] fails only on an empty history, and its
    baseline is always one of the closes of the history.  On a working day
    from the opening on, it follows the market clock: while the market is
    open the baseline is the close before the last one, and once the market
    is closed it is the last close. *)
Theorem previous_close_follows_the_clock :
  forall (hist : list float) (now : datetime),
    (get_previous_close hist now = None <-> hist = []) /\
    (forall c, get_previous_close hist now = Some c -> In c hist) /\
    (weekday now < 5 -> 34200000000 <= time_of_day now ->
     (2 <= List.length hist)%nat ->
     get_previous_close hist now =
       if is_market_closed now
       then Some (last hist 0%float)
       else Some (nth (List.length hist - 2) hist 0%float)).
Proof.
  intros hist now. unfold get_previous_close. split; [|split].
  - destruct hist; [tauto|].
    destruct (16 <=? hour now); [|destruct (2 <=? _)];
      split; discriminate.
  - intros c. destruct hist as [|a l] eqn:E; [discriminate|]. rewrite <- E.
    assert (Hne : hist <> []) by (rewrite E; discriminate).
    destruct (16 <=? hour now); [|destruct (2 <=? _) eqn:E2];
      intros H; injection H as <-.
    + now apply last_In.
    + apply nth_In. apply Z.leb_le in E2. lia.
    + now apply last_In.
  - intros Hw Ht Hl. destruct hist as [|a l] eqn:E; [simpl in Hl; lia|].
    rewrite <- E in *.
    replace (2 <=? Z.of_nat (List.length hist)) with true
      by (symmetry; apply Z.leb_le; lia).
    destruct (is_market_closed now) eqn:Ec.
    + apply is_market_closed_true in Ec.
      replace (16 <=? hour now) with true; auto.
      symmetry. apply Z.leb_le. revert Ec Hw Ht. clear.
      unfold hour, weekday, time_of_day, toordinal, day_us.
      intros. Z.div_mod_to_equations. lia.
    + apply is_market_closed_false in Ec.
      replace (16 <=? hour now) with false; auto.
      symmetry. apply Z.leb_gt. revert Ec. clear.
      unfold hour, weekday, time_of_day, toordinal, day_us.
      intros. Z.div_mod_to_equations. lia.
Qed.

End MarketClockFacts.

(* ================================================================== *)
(** * Theorems: what the cycles change *)
(* ================================================================== *)

Module FrameFacts.

Import PyDatetime Database App Spec Frames StoreFacts CycleFacts.
Local Open Scope Z_scope.

(** ** The refresh cycle and the stored predictions *)

Lemma set_status_same (a : article) : set_status (status a) a = a.
Proof. destruct a; reflexivity. Qed.

Lemma refreshed_refl (closed : bool) (a : article) : refreshed closed a a.
Proof. split; [symmetry; apply set_status_same | now left]. Qed.

Lemma Forall2_refreshed_refl (closed : bool) (l : list article) :
  Forall2 (refreshed closed) l l.
Proof. induction l; constructor; auto using refreshed_refl. Qed.

Lemma refreshed_id (closed : bool) (a a' : article) :
  refreshed closed a a' -> id a' = id a.
Proof. intros [-> _]. reflexivity. Qed.

Lemma refreshed_update (closed : bool) (k : Z) (s : Status)
    (l0 l : list article) :
  Forall2 (refreshed closed) l0 l ->
  (forall a, In a l0 -> id a = k -> status a = PENDING) ->
  written closed s ->
  Forall2 (refreshed closed) l0
    (map (fun a => if id a =? k then set_status s a else a) l).
Proof.
  intros H Hk Hs. induction H as [|a a' l0 l Ha Hl IH]; simpl; constructor.
  - destruct (id a' =? k) eqn:E; auto.
    apply Z.eqb_eq in E. rewrite (refreshed_id _ _ _ Ha) in E.
    destruct Ha as [Ha _]. split.
    + rewrite Ha. reflexivity.
    + right. split; [apply Hk; auto; now left | exact Hs].
  - apply IH. intros b Hb. apply Hk. now right.
Qed.

Lemma update_loop_refreshed (env : refresh_env) (l0 : list article)
    (pending : list article) :
  (forall p a, In p pending -> In a l0 -> id a = id p -> status a = PENDING) ->
  forall (i : nat) (d : db) (n : nat),
    Forall2 (refreshed (is_market_closed env)) l0 (articles d) ->
    Forall2 (refreshed (is_market_closed env)) l0
      (articles (fst (update_loop env i pending d n))).
Proof.
  induction pending as [|p pending IH]; intros Hp i d n H; simpl; auto.
  assert (Hrest : forall q a, In q pending -> In a l0 -> id a = id q ->
                              status a = PENDING)
    by (intros q a Hq; apply Hp; now right).
  destruct (PriceTracker.get_price_data _ _) as [pd|]; auto.
  destruct (add_price_snapshot _ _ _ _ _ _ _) as [d1 b] eqn:E.
  apply IH; auto. simpl.
  assert (E1 : articles d1 = articles d).
  { pose proof (add_price_snapshot_articles d (check_time env i) (id p)
      (PriceTracker.previous_close pd) (PriceTracker.current_price pd)
      (PriceTracker.actual_movement_pct pd)
      (claimed_percentage p - PriceTracker.actual_movement_pct pd)%float) as [Ha _].
    now rewrite E in Ha. }
  rewrite E1. apply refreshed_update; auto.
  - intros a Ha. apply (Hp p a); auto. now left.
  - unfold written. eauto.
Qed.

Lemma pending_rows (d : db) (p a : article) :
  schema_ok d -> In p (get_pending_articles d) -> In a (articles d) ->
  id a = id p -> status a = PENDING.
Proof.
  intros (Nid & _) Hp Ha Hid.
  apply filter_In in Hp. destruct Hp as [Hin Hs].
  assert (E : Some a = Some p).
  { rewrite <- (find_by_id (articles d) a Nid Ha), Hid.
    now apply find_by_id. }
  injection E as ->. destruct (status p); simpl in Hs; congruence.
Qed.

Lemma update_loop_seq (env : refresh_env) (pending : list article) :
  forall (i : nat) (d : db) (n : nat),
    articles_seq (fst (update_loop env i pending d n)) = articles_seq d.
Proof.
  induction pending as [|p pending IH]; intros i d n; simpl; auto.
  destruct (PriceTracker.get_price_data _ _) as [pd|]; auto.
  destruct (add_price_snapshot _ _ _ _ _ _ _) as [d1 b] eqn:E.
  rewrite IH. simpl.
  pose proof (add_price_snapshot_articles d (check_time env i) (id p)
      (PriceTracker.previous_close pd) (PriceTracker.current_price pd)
      (PriceTracker.actual_movement_pct pd)
      (claimed_percentage p - PriceTracker.actual_movement_pct pd)%float) as [_ Hs].
  now rewrite E in Hs.
Qed.

Lemma update_prices_refreshed_rows (env : refresh_env) (d : db) :
  schema_ok d ->
  Forall2 (refreshed (is_market_closed env))
    (articles d) (articles (fst (update_prices env d))) /\
  articles_seq (fst (update_prices env d)) = articles_seq d.
Proof.
  intros Hok. unfold update_prices. split.
  - apply update_loop_refreshed.
    + intros p a Hp Ha Hid. now apply (pending_rows d p a).
    + apply Forall2_refreshed_refl.
  - apply update_loop_seq.
Qed.

(** X4. A refresh cycle changes nothing of the stored predictions but
    statuses: the rows after the cycle are the rows before it, in the same
    order, each with the status it had or, if it was pending, with a status
    that the classifier returned for the present market state; no id is handed
    out. *)
Theorem update_prices_changes_statuses_only :
  forall (env : refresh_env) (d : db),
    schema_ok d ->
    Forall2 (refreshed (is_market_closed env))
      (articles d) (articles (fst (update_prices env d))) /\
    articles_seq (fst (update_prices env d)) = articles_seq d.
Proof. intros env d Hok. now apply update_prices_refreshed_rows. Qed.

(** ** The refresh cycle and the snapshots *)

Lemma add_price_snapshot_appends (d : db) (ts : string) (p : article)
    (pc cp : float) :
  let mv := PriceTracker.calculate_movement pc cp in
  let g := (claimed_percentage p - mv)%float in
  exists new,
    price_snapshots (fst (add_price_snapshot d ts (id p) pc cp mv g))
      = price_snapshots d ++ new /\
    (List.length new <= 1)%nat /\
    Forall (snapshot_of p) new.
Proof.
  intros mv g. unfold add_price_snapshot.
  destruct (is_nan pc || is_nan cp || is_nan mv || is_nan g); simpl.
  - exists []. rewrite app_nil_r. repeat split; auto.
  - eexists [_]. repeat split; auto. constructor; [|constructor].
    repeat split; reflexivity.
Qed.

Lemma update_loop_snapshots (env : refresh_env) (pending : list article) :
  forall (i : nat) (d : db) (n : nat),
    exists new,
      price_snapshots (fst (update_loop env i pending d n))
        = price_snapshots d ++ new /\
      (n + List.length new <= snd (update_loop env i pending d n))%nat /\
      Forall (fun s => exists p, In p pending /\ snapshot_of p s) new.
Proof.
  induction pending as [|p pending IH]; intros i d n; simpl.
  - exists []. rewrite app_nil_r. repeat split; auto. simpl. lia.
  - unfold PriceTracker.get_price_data.
    destruct (get_previous_close env i (ticker p)) as [pc|];
      [destruct (get_current_price env i (ticker p)) as [cp|]|].
    + cbn [PriceTracker.previous_close PriceTracker.current_price
           PriceTracker.actual_movement_pct].
      destruct (add_price_snapshot_appends d (check_time env i) p pc cp)
        as (new1 & E1 & L1 & F1).
      destruct (add_price_snapshot _ _ _ _ _ _ _) as [d1 b] eqn:E.
      simpl in E1.
      destruct (IH (S i)
        (update_article_status d1 (id p)
           (PriceTracker.determine_status (claimed_percentage p)
              (PriceTracker.calculate_movement pc cp) (direction p)
              (is_market_closed env))) (S n)) as (new & E2 & L2 & F2).
      exists (new1 ++ new). split; [|split].
      * rewrite E2. simpl. rewrite E1. now rewrite app_assoc.
      * rewrite length_app. lia.
      * apply Forall_app. split.
        -- eapply Forall_impl; [|exact F1]. intros s Hs. exists p. auto.
        -- eapply Forall_impl; [|exact F2].
           intros s (q & Hq & Hs). exists q. auto.
    + destruct (IH (S i) d n) as (new & E2 & L2 & F2).
      exists new. repeat split; auto.
      eapply Forall_impl; [|exact F2]. intros s (q & Hq & Hs). exists q. auto.
    + destruct (IH (S i) d n) as (new & E2 & L2 & F2).
      exists new. repeat split; auto.
      eapply Forall_impl; [|exact F2]. intros s (q & Hq & Hs). exists q. auto.
Qed.

(** X5. The snapshots are append-only under a refresh cycle: the cycle keeps
    every stored snapshot and adds, after them, at most one per updated
    prediction; each added snapshot belongs to a prediction that was pending,
    its movement is [calculate_movement] of its two prices, and its gap is
    the claimed percentage minus that movement. *)
Theorem update_prices_appends_snapshots :
  forall (env : refresh_env) (d : db),
    exists new : list snapshot,
      price_snapshots (fst (update_prices env d)) = price_snapshots d ++ new /\
      (List.length new <= snd (update_prices env d))%nat /\
      Forall (fun s => exists p, In p (get_pending_articles d) /\ snapshot_of p s)
        new.
Proof.
  intros env d. unfold update_prices.
  destruct (update_loop_snapshots env (get_pending_articles d) 0 d 0)
    as (new & E & L & F).
  exists new. repeat split; auto.
Qed.

(** ** The collection cycle *)

Section CollectFrame.

Variable fromisoformat : string -> option datetime.

Lemma stored_from_tail (today : string) (s : scraped) (arts : list scraped)
    (new : list article) :
  Forall (stored_from today arts) new ->
  Forall (stored_from today (s :: arts)) new.
Proof.
  apply Forall_impl. intros x (H1 & H2 & s' & Hs & H3).
  repeat split; auto. exists s'. split; [now right | exact H3].
Qed.

Ltac finish_collect Hrow :=
  repeat split; auto; try lia;
  try (repeat (f_equal; try lia); fail);
  try (now apply stored_from_tail);
  try (now rewrite <- app_assoc);
  try (constructor; [apply Hrow | now apply stored_from_tail]).

Lemma collect_loop_appends (env : collect_env) (today : string)
    (arts : list scraped) :
  forall (i : nat) (d : db) (a dc ic : nat),
    schema_ok d ->
    exists (new : list article) (kd ki : nat),
      let r := collect_loop fromisoformat env today i arts d a dc ic in
      articles (fst r) = articles d ++ new /\
      price_snapshots (fst r) = price_snapshots d /\
      articles_seq (fst r) = articles_seq d + Z.of_nat (List.length new) /\
      snd r = ((a + List.length new)%nat, (dc + kd)%nat, (ic + ki)%nat) /\
      (List.length new + ki <= List.length arts)%nat /\
      (List.length arts <= List.length new + kd + ki)%nat /\
      Forall (stored_from today arts) new.
Proof.
  induction arts as [|x arts IH]; intros i d a dc ic Hok.
  - exists [], 0%nat, 0%nat. simpl. rewrite app_nil_r, !Nat.add_0_r, Z.add_0_r.
    repeat split; auto.
  - cbn [collect_loop].
    destruct (negb (validate_ticker env i (s_ticker x))) eqn:Ev.
    + destruct (IH (S i) d a dc (S ic) Hok)
        as (new & kd & ki & E1 & E2 & E3 & E4 & L1 & L2 & F).
      exists new, kd, (S ki). cbv zeta in *.
      rewrite E1, E2, E3, E4. simpl List.length.
      finish_collect F.
    + destruct (is_nan (s_claimed_percentage x)
                || url_taken (s_article_url x) d) eqn:Er.
      * rewrite add_article_rejected by exact Er. cbn [truthy].
        destruct (IH (S i) d a (S dc) ic Hok)
          as (new & kd & ki & E1 & E2 & E3 & E4 & L1 & L2 & F).
        exists new, (S kd), ki. cbv zeta in *.
        rewrite E1, E2, E3, E4. simpl List.length.
        finish_collect F.
      * apply orb_false_iff in Er. destruct Er as [Hn Hu].
        rewrite add_article_inserted by assumption.
        pose proof Hok as (_ & _ & Hb & Hseq).
        assert (Htr : truthy (Some (articles_seq d + 1)) = true).
        { simpl. apply negb_true_iff. apply Z.eqb_neq. lia. }
        rewrite Htr.
        set (row := fun flag =>
          Article (articles_seq d + 1) (s_ticker x) (s_claimed_percentage x)
            (s_direction x) (s_article_timestamp x) (s_source_name x)
            (s_article_url x) (s_headline x) PENDING flag today).
        assert (Hok1 : forall flag,
                  schema_ok (Db (articles d ++ [row flag]) (price_snapshots d)
                               (articles_seq d + 1))).
        { intros flag.
          pose proof (add_article_ok d (s_ticker x) (s_claimed_percentage x)
            (s_direction x) (s_article_timestamp x) (s_source_name x)
            (s_article_url x) (s_headline x) today Hok) as H.
          rewrite add_article_inserted in H by assumption. simpl in H.
          destruct flag; [|exact H].
          apply (mark_as_duplicate_ok _ (articles_seq d + 1)) in H.
          unfold mark_as_duplicate in H. simpl in H.
          rewrite map_app, (DuplicateFacts.mark_new_only _ _ _ Hb) in H.
          simpl in H. now rewrite Z.eqb_refl in H. }
        assert (Hrow : forall flag, stored_from today (x :: arts) (row flag)).
        { intros flag. repeat split; auto. exists x. repeat split; auto.
          now left. }
        destruct (nonempty _).
        -- unfold mark_as_duplicate.
           cbn [articles price_snapshots articles_seq].
           rewrite map_app, (DuplicateFacts.mark_new_only _ _ _ Hb).
           cbn [map id]. rewrite Z.eqb_refl. fold (row false).
           change (set_duplicate (row false)) with (row true).
           destruct (IH (S i) _ (S a) (S dc) ic (Hok1 true))
             as (new & kd & ki & E1 & E2 & E3 & E4 & L1 & L2 & F).
           exists (row true :: new), (S kd), ki. cbv zeta in *.
           rewrite E1, E2, E3, E4. cbn [articles price_snapshots articles_seq].
           simpl List.length.
           finish_collect Hrow.
        -- fold (row false).
           destruct (IH (S i) _ (S a) dc ic (Hok1 false))
             as (new & kd & ki & E1 & E2 & E3 & E4 & L1 & L2 & F).
           exists (row false :: new), kd, ki. cbv zeta in *.
           rewrite E1, E2, E3, E4. cbn [articles price_snapshots articles_seq].
           simpl List.length.
           finish_collect Hrow.
Qed.

(** X6. A collection cycle only appends: it keeps every stored prediction
    and every snapshot as they are, and adds as many predictions as it counts
    as added, each one pending, of today, and made from an entry of the feed;
    the ids handed out advance by the same number.  Every entry of the feed
    is counted: added and invalid entries together are no more than the feed,
    and added, duplicate and invalid counts together cover it. *)
Theorem collect_articles_appends :
  forall (env : collect_env) (today : string) (arts : list scraped) (d : db),
    schema_ok d ->
    exists new : list article,
      let d' := fst (collect_articles fromisoformat env today arts d) in
      let '(added, dups, invalid) :=
        snd (collect_articles fromisoformat env today arts d) in
      articles d' = articles d ++ new /\
      List.length new = added /\
      price_snapshots d' = price_snapshots d /\
      articles_seq d' = articles_seq d + Z.of_nat added /\
      (added + invalid <= List.length arts)%nat /\
      (List.length arts <= added + dups + invalid)%nat /\
      Forall (stored_from today arts) new.
Proof.
  intros env today arts d Hok. unfold collect_articles.
  destruct (collect_loop_appends env today arts 0 d 0 0 0 Hok)
    as (new & kd & ki & E1 & E2 & E3 & E4 & L1 & L2 & F).
  exists new. cbv zeta in *. rewrite E4. simpl.
  repeat split; auto.
Qed.

(** ** A stored prediction through the cycles *)

Lemma Forall2_refreshed_find (closed : bool) (i : Z) (l l' : list article) :
  Forall2 (refreshed closed) l l' ->
  match find (fun a => id a =? i) l, find (fun a => id a =? i) l' with
  | Some a, Some a' => refreshed closed a a'
  | None, None => True
  | _, _ => False
  end.
Proof.
  induction 1 as [|a a' l l' Ha Hl IH]; simpl; auto.
  rewrite (refreshed_id _ _ _ Ha). destruct (id a =? i); auto.
Qed.

Lemma step_keeps_article (d : db) (ev : event) (i : Z) (a : article) :
  schema_ok d ->
  find_article d i = Some a ->
  exists a', find_article (step fromisoformat d ev) i = Some a' /\
             a' = set_status (status a') a.
Proof.
  intros Hok Hf. unfold find_article in *. destruct ev as [env today arts | env].
  - destruct (collect_loop_appends env today arts 0 d 0 0 0 Hok)
      as (new & _ & _ & E1 & _).
    exists a. split; [|symmetry; apply set_status_same].
    simpl. unfold collect_articles. cbv zeta in E1. rewrite E1.
    now apply find_app_some.
  - pose proof (proj1 (update_prices_refreshed_rows env d Hok)) as H.
    apply (Forall2_refreshed_find _ i) in H. simpl. rewrite Hf in H.
    destruct (find _ (articles (fst (update_prices env d)))) as [a'|];
      [|contradiction].
    exists a'. split; auto. now destruct H.
Qed.

(** X7. Nothing but the status of a stored prediction ever changes: after
    any sequence of collection and refresh cycles the prediction with a given
    id is still stored with the same ticker, percentage, direction,
    timestamp, source, url, headline, collection date and duplicate flag. *)
Theorem stored_prediction_is_frozen :
  forall (evs : list event) (d : db) (i : Z) (a : article),
    schema_ok d ->
    find_article d i = Some a ->
    exists a', find_article (run fromisoformat evs d) i = Some a' /\
               a' = set_status (status a') a.
Proof.
  unfold run. induction evs as [|ev evs IH]; intros d i a Hok Hf; simpl.
  - exists a. split; auto. symmetry. apply set_status_same.
  - destruct (step_keeps_article d ev i a Hok Hf) as (a1 & Hf1 & E1).
    destruct (IH (step fromisoformat d ev) i a1
                (step_ok fromisoformat d ev Hok) Hf1) as (a2 & Hf2 & E2).
    exists a2. split; auto. rewrite E2 at 1. rewrite E1. reflexivity.
Qed.

End CollectFrame.

(** ** What a refresh cycle writes *)

Lemma written_open (s : Status) : written false s -> s = HIT \/ s = PENDING.
Proof.
  intros (c & a & dir & ->). rewrite PriceTrackerFacts.determine_status_cases.
  rewrite andb_false_r.
  destruct (_ && _); auto. destruct (_ && _); auto.
Qed.

Lemma written_closed (s : Status) : written true s -> s <> PENDING.
Proof.
  intros (c & a & dir & ->). rewrite PriceTrackerFacts.determine_status_cases.
  destruct (_ && true); [discriminate|].
  destruct (_ && _); [discriminate|]. destruct (_ && _); discriminate.
Qed.

(** X8. What a refresh cycle can write depends on the market: the stored
    status of a prediction after the cycle is the one before it, unless the
    prediction was pending; a pending prediction can, before the close, only
    become a HIT (never a MISS or a PARTIAL), and at the close only HIT,
    PARTIAL or MISS. *)
Theorem refresh_writes_by_market_state :
  forall (env : refresh_env) (d : db) (i : Z) (s s' : Status),
    schema_ok d ->
    status_of d i = Some s ->
    status_of (fst (update_prices env d)) i = Some s' ->
    s' = s \/
    (s = PENDING /\ if is_market_closed env then s' <> PENDING else s' = HIT).
Proof.
  intros env d i s s' Hok Hs Hs'.
  pose proof (proj1 (update_prices_refreshed_rows env d Hok)) as H.
  apply (Forall2_refreshed_find _ i) in H.
  unfold status_of in Hs, Hs'.
  destruct (find _ (articles d)) as [a|]; [|discriminate].
  destruct (find _ (articles (fst (update_prices env d)))) as [a'|];
    [|discriminate].
  simpl in Hs, Hs'. injection Hs as <-. injection Hs' as <-.
  destruct H as [_ [H | [Hp Hw]]]; auto.
  destruct (is_market_closed env).
  - right. split; auto. now apply written_closed.
  - apply written_open in Hw. destruct Hw as [Hw | Hw]; auto.
    left. congruence.
Qed.

(** ** A refresh at the close *)

Lemma status_of_update_same (d : db) (k : Z) (s : Status) :
  In k (map id (articles d)) ->
  status_of (update_article_status d k s) k = Some s.
Proof.
  unfold status_of, update_article_status; simpl.
  rewrite find_update by reflexivity. intros Hin.
  destruct (find (fun a => id a =? k) (articles d)) as [a|] eqn:E; simpl.
  - apply find_some in E. destruct E as [_ E]. now rewrite E.
  - exfalso. apply in_map_iff in Hin. destruct Hin as (b & Hb & Hin).
    apply (find_none _ _ E) in Hin. apply Z.eqb_neq in Hin. auto.
Qed.



Lemma NoDup_map_filter {A B : Type} (f : A -> B) (g : A -> bool) (l : list A) :
  NoDup (map f l) -> NoDup (map f (filter g l)).
Proof.
  induction l as [|a l IH]; simpl; auto.
  intros H. inversion H as [|? ? Hnot Hnd]; subst.
  destruct (g a); simpl; auto. constructor; auto.
  intros Hin. apply Hnot. apply in_map_iff in Hin.
  destruct Hin as (b & Hb & Hin). apply filter_In in Hin.
  rewrite <- Hb. apply in_map. tauto.
Qed.


(** ** The theorems at work on sample data *)

Lemma update_prices_changes_statuses_only_witness :
  Forall2 (refreshed (is_market_closed (Examples.priced true 90)))
    (articles Examples.nvda_db)
    (articles (fst (update_prices (Examples.priced true 90) Examples.nvda_db))) /\
  articles_seq (fst (update_prices (Examples.priced true 90) Examples.nvda_db))
  = articles_seq Examples.nvda_db.
Proof.
  exact (update_prices_changes_statuses_only (Examples.priced true 90)
           Examples.nvda_db nvda_db_ok).
Defined.

Lemma collect_articles_appends_witness :
  exists new : list article,
    articles (fst (collect_articles iso_parse Examples.all_valid "2024-01-15"
                     [Examples.nvda_again] Examples.nvda_db))
    = articles Examples.nvda_db ++ new /\
    List.length new = 1%nat.
Proof.
  destruct (collect_articles_appends iso_parse Examples.all_valid "2024-01-15"
              [Examples.nvda_again] Examples.nvda_db nvda_db_ok) as (new & H).
  cbv zeta in H.
  replace (snd (collect_articles iso_parse Examples.all_valid "2024-01-15"
                  [Examples.nvda_again] Examples.nvda_db))
    with (1%nat, 1%nat, 0%nat) in H by (vm_compute; reflexivity).
  destruct H as (E1 & E2 & _). exists new. split; assumption.
Defined.

Lemma stored_prediction_is_frozen_witness :
  exists a',
    find_article (run iso_parse Examples.later_cycles Examples.hit_db) 1 = Some a' /\
    a' = set_status (status a') Samples.hit_row.
Proof.
  exact (stored_prediction_is_frozen iso_parse Examples.later_cycles
           Examples.hit_db 1 Samples.hit_row hit_db_ok eq_refl).
Defined.

Lemma refresh_writes_by_market_state_witness :
  HIT = PENDING \/
  (PENDING = PENDING /\
   if is_market_closed (Examples.priced false 124)
   then HIT <> PENDING else HIT = HIT).
Proof.
  exact (refresh_writes_by_market_state (Examples.priced false 124)
           Examples.nvda_db 1 PENDING HIT nvda_db_ok eq_refl eq_refl).
Defined.


End FrameFacts.

(* ================================================================== *)
(** * Theorems: the daily statistics *)
(* ================================================================== *)

Module StatsFacts.

Import PyDatetime Database App Spec Frames Reports StoreFacts CycleFacts FrameFacts.
Local Open Scope nat_scope.

Lemma count_status_partition (rows : list article) :
  List.length rows =
  count_status HIT rows + count_status MISS rows
  + count_status PARTIAL rows + count_status PENDING rows.
Proof.
  unfold count_status. induction rows as [|a rows IH]; simpl; auto.
  destruct (status a); simpl; lia.
Qed.

Lemma refreshed_rows_of (closed : bool) (date : string) (l l' : list article) :
  Forall2 (refreshed closed) l l' ->
  Forall2 (refreshed closed)
    (filter (fun a => String.eqb (collection_date a) date) l)
    (filter (fun a => String.eqb (collection_date a) date) l').
Proof.
  induction 1 as [|a a' l l' Ha Hl IH]; simpl; auto.
  assert (E : collection_date a' = collection_date a)
    by (destruct Ha as [-> _]; reflexivity).
  rewrite E. destruct (String.eqb _ _); auto.
Qed.

Lemma refreshed_counts (closed : bool) (l l' : list article) :
  Forall2 (refreshed closed) l l' ->
  List.length l' = List.length l /\
  map claimed_percentage l' = map claimed_percentage l /\
  count_status HIT l <= count_status HIT l' /\
  count_status MISS l <= count_status MISS l' /\
  count_status PARTIAL l <= count_status PARTIAL l' /\
  count_status PENDING l' <= count_status PENDING l /\
  (closed = false ->
   count_status MISS l' = count_status MISS l /\
   count_status PARTIAL l' = count_status PARTIAL l).
Proof.
  unfold count_status.
  induction 1 as [|a a' l l' Ha Hl IH]; simpl.
  - repeat split; auto.
  - destruct IH as (I1 & I2 & I3 & I4 & I5 & I6 & I7).
    assert (Ep : claimed_percentage a' = claimed_percentage a)
      by (destruct Ha as [-> _]; reflexivity).
    rewrite Ep, I1, I2.
    assert (Hst : status a' = status a \/
                  (status a = PENDING /\ status a' <> PENDING /\ closed = true) \/
                  (status a = PENDING /\ status a' = HIT /\ closed = false)).
    { destruct Ha as [_ [Hs | [Hp Hw]]]; auto. destruct closed.
      - right. left. split; auto. split; auto. now apply written_closed.
      - apply written_open in Hw. destruct Hw as [Hw | Hw].
        + right. right. auto.
        + left. congruence. }
    split; [reflexivity|]. split; [reflexivity|].
    assert (Hopen : closed = false ->
              List.length (filter (fun a => Status_eqb (status a) MISS) l')
              = List.length (filter (fun a => Status_eqb (status a) MISS) l) /\
              List.length (filter (fun a => Status_eqb (status a) PARTIAL) l')
              = List.length (filter (fun a => Status_eqb (status a) PARTIAL) l))
      by exact I7.
    clear I7.
    destruct Hst as [Hs | [(Hp & Hn & Ht) | (Hp & Hh & Hc)]].
    + rewrite Hs. destruct (status a); simpl;
        (split; [lia|]; split; [lia|]; split; [lia|]; split; [lia|];
         intros Hc; destruct (Hopen Hc); lia).
    + rewrite Hp. destruct (status a'); simpl; try congruence;
        (split; [lia|]; split; [lia|]; split; [lia|]; split; [lia|];
         intros Hc; congruence).
    + rewrite Hp, Hh. simpl.
      split; [lia|]. split; [lia|]. split; [lia|]. split; [lia|].
      intros _. destruct (Hopen Hc); lia.
Qed.

Section WithAvg.

Variable sqlite_avg : list float -> option float.

(** X10. The daily statistics count every prediction of the date once: the
    total is the sum of hits, misses, partials and pending; and the hit rate
    is 0 when there is no hit, also on a date without predictions, where
    nothing is divided. *)
Theorem daily_stats_partition :
  forall (d : db) (date : string),
    let s := get_daily_stats sqlite_avg d date in
    total_predictions s = hits s + misses s + partials s + pending s /\
    (hits s = 0 -> hit_rate s = 0%float).
Proof.
  intros d date. cbv zeta. unfold get_daily_stats. simpl. split.
  - apply count_status_partition.
  - intros ->. destruct (0 <? _); reflexivity.
Qed.

(** X11. A refresh cycle moves predictions of a date out of pending, and
    nowhere else: in the statistics of every date the total and the average
    claim stay, hits, misses and partials do not decrease and pending does
    not increase; before the close misses and partials stay as they are. *)
Theorem refresh_moves_pending_only :
  forall (env : refresh_env) (d : db) (date : string),
    schema_ok d ->
    let s := get_daily_stats sqlite_avg d date in
    let s' := get_daily_stats sqlite_avg (fst (update_prices env d)) date in
    total_predictions s' = total_predictions s /\
    avg_predicted s' = avg_predicted s /\
    hits s <= hits s' /\ misses s <= misses s' /\ partials s <= partials s' /\
    pending s' <= pending s /\
    (is_market_closed env = false ->
     misses s' = misses s /\ partials s' = partials s).
Proof.
  intros env d date Hok. cbv zeta. unfold get_daily_stats, rows_of. simpl.
  pose proof (proj1 (update_prices_refreshed_rows env d Hok)) as H.
  apply (refreshed_rows_of _ date) in H.
  apply refreshed_counts in H.
  destruct H as (I1 & I2 & I3 & I4 & I5 & I6 & I7).
  rewrite I1, I2. repeat split; auto; now apply I7.
Qed.

End WithAvg.

(** On the sample database a refresh at the close moves the one pending
    prediction of the day out of pending. *)
Lemma refresh_moves_pending_only_witness :
  let s := get_daily_stats Samples.no_avg Examples.nvda_db "2024-01-15" in
  let s' := get_daily_stats Samples.no_avg
              (fst (update_prices (Examples.priced true 90) Examples.nvda_db))
              "2024-01-15" in
  total_predictions s' = total_predictions s /\
  avg_predicted s' = avg_predicted s /\
  hits s <= hits s' /\ misses s <= misses s' /\ partials s <= partials s' /\
  pending s' <= pending s /\
  (is_market_closed (Examples.priced true 90) = false ->
   misses s' = misses s /\ partials s' = partials s).
Proof.
  exact (refresh_moves_pending_only Samples.no_avg (Examples.priced true 90)
           Examples.nvda_db "2024-01-15" nvda_db_ok).
Defined.

(** Two hits, a miss and a pending prediction give a hit rate of 50. *)
Example hit_rate_of_four :
  let row := fun (i : Z) (url : string) (s : Status) =>
    Article i "NVDA" 24 "up" "2024-01-15T10:00:00-05:00" "Yahoo Finance"
      url "NVDA surges 24%" s false "2024-01-15" in
  hit_rate
    (get_daily_stats Samples.no_avg
       (Db [row 1%Z "u1"%string HIT; row 2%Z "u2"%string HIT; row 3%Z "u3"%string MISS;
            row 4%Z "u4"%string PENDING] [] 4)
       "2024-01-15") = 50%float.
Proof. vm_compute. reflexivity. Qed.

End StatsFacts.

(* ================================================================== *)
(** * Theorems: the store operations *)
(* ================================================================== *)

Module StoreOpsFacts.

Import PyDatetime Database App Spec Frames StoreFacts CycleFacts FrameFacts.
Local Open Scope Z_scope.

Lemma find_app_none {A : Type} (f : A -> bool) (l l' : list A) :
  find f l = None -> find f (l ++ l') = find f l'.
Proof.
  induction l as [|b l IH]; simpl; auto.
  destruct (f b); [discriminate | auto].
Qed.

Lemma find_fresh_id (d : db) (k : Z) :
  schema_ok d -> articles_seq d < k ->
  find (fun a => id a =? k) (articles d) = None.
Proof.
  intros (_ & _ & Hb & _) Hk.
  destruct (find _ (articles d)) as [a|] eqn:E; auto.
  apply find_some in E. destruct E as [Hin E]. apply Z.eqb_eq in E.
  rewrite Forall_forall in Hb. specialize (Hb a Hin). lia.
Qed.

(** X12. An insertion that returns an id can be looked up: the id is new
    and larger than every id handed out before, the prediction stored under
    it is the inserted one, PENDING and not flagged, it is among the pending
    predictions, its url is taken from now on, and every prediction stored
    before is found as before. *)
Theorem add_article_then_lookup :
  forall (d d' : db) (k : Z) (t : string) (p : float)
         (dir ts src url h date : string),
    schema_ok d ->
    add_article d t p dir ts src url h date = (d', Some k) ->
    articles_seq d < k /\
    find_article d k = None /\
    find_article d' k
      = Some (Article k t p dir ts src url h PENDING false date) /\
    In (Article k t p dir ts src url h PENDING false date)
       (get_pending_articles d') /\
    url_taken url d' = true /\
    (forall i a, find_article d i = Some a -> find_article d' i = Some a).
Proof.
  intros d d' k t p dir ts src url h date Hok H.
  unfold add_article in H.
  destruct (is_nan p || url_taken url d); [discriminate|].
  injection H as <- <-. unfold find_article. simpl.
  assert (Hnone : find (fun a => id a =? articles_seq d + 1) (articles d) = None)
    by (apply find_fresh_id; auto; lia).
  split; [lia|]. split; [exact Hnone|]. split; [|split; [|split]].
  - rewrite find_app_none by exact Hnone. simpl. now rewrite Z.eqb_refl.
  - unfold get_pending_articles. simpl. apply filter_In. split; auto.
    apply in_or_app. right. now left.
  - apply url_taken_spec. simpl. rewrite map_app. apply in_or_app.
    right. now left.
  - intros i a Hf. now apply find_app_some.
Qed.

Lemma update_missing (f : article -> article) (k : Z) (l : list article) :
  ~ In k (map id l) ->
  map (fun a => if id a =? k then f a else a) l = l.
Proof.
  induction l as [|a l IH]; simpl; auto. intros Hn.
  rewrite IH by tauto. destruct (id a =? k) eqn:E; auto.
  apply Z.eqb_eq in E. tauto.
Qed.

Lemma db_eta (d : db) : Db (articles d) (price_snapshots d) (articles_seq d) = d.
Proof. destruct d; reflexivity. Qed.

(** X13. [update_article_status] is an update keyed by the id: the status
    written for a stored id is the one read back, the status of every other
    id stays, writing twice leaves the second status, and writing to an id
    that is not stored changes nothing. *)
Theorem update_article_status_is_keyed :
  forall (d : db) (k : Z) (s s2 : Status),
    (In k (map id (articles d)) ->
     status_of (update_article_status d k s) k = Some s) /\
    (forall i, i <> k ->
       status_of (update_article_status d k s) i = status_of d i) /\
    update_article_status (update_article_status d k s) k s2
      = update_article_status d k s2 /\
    (~ In k (map id (articles d)) -> update_article_status d k s = d).
Proof.
  intros d k s s2. split; [|split; [|split]].
  - apply status_of_update_same.
  - intros i Hi. apply status_of_update_other. congruence.
  - unfold update_article_status. simpl. f_equal.
    rewrite map_map. apply map_ext. intros a.
    destruct (id a =? k) eqn:E; simpl; rewrite E; reflexivity.
  - intros Hn. unfold update_article_status.
    rewrite update_missing by exact Hn. apply db_eta.
Qed.

Lemma add_article_then_lookup_witness :
  articles_seq Examples.nvda_db < 2 /\
  find_article Examples.nvda_db 2 = None /\
  find_article
    (fst (add_article Examples.nvda_db "NVDA" 26 "up"
            "2024-01-15T10:50:00-05:00" "MarketWatch" "https://news.example/b"
            "NVDA jumps 26%" "2024-01-15")) 2
  = Some (Article 2 "NVDA" 26 "up" "2024-01-15T10:50:00-05:00" "MarketWatch"
            "https://news.example/b" "NVDA jumps 26%" PENDING false "2024-01-15").
Proof.
  destruct (add_article_then_lookup Examples.nvda_db
              (fst (add_article Examples.nvda_db "NVDA" 26 "up"
                      "2024-01-15T10:50:00-05:00" "MarketWatch"
                      "https://news.example/b" "NVDA jumps 26%" "2024-01-15"))
              2 "NVDA" 26 "up" "2024-01-15T10:50:00-05:00" "MarketWatch"
              "https://news.example/b" "NVDA jumps 26%" "2024-01-15"
              nvda_db_ok eq_refl) as (H1 & H2 & H3 & _).
  split; [exact H1 | split; [exact H2 | exact H3]].
Defined.

End StoreOpsFacts.

(* ================================================================== *)
(** * Theorems: more on the claim extractor *)
(* ================================================================== *)

Module ExtractorFacts.

Import Re Scraper Spec ScraperFacts.
Local Open Scope string_scope.

(** ** Exclusions that the specification does not list *)

Lemma lang_if_space (c : ascii) :
  is_space c = true ->
  lang (Cat (Lit "if") (Plus is_space)) ("if" ++ String c "").
Proof.
  intros Hc. exists "if", (String c ""). split; [reflexivity|].
  split; [reflexivity|].
  exists (String c ""), "". repeat split. exists c. auto.
Qed.

(** X14. The exclusion filter has patterns beyond the listed hedges: a text
    that contains, after lower-casing, "projected to", "forecasted to",
    "analyst predict", or "if" followed by a white-space character, yields no
    claim.  The last pattern has no word boundary: it also rejects a text in
    which a longer word, such as a ticker, ends in "if". *)
Theorem unlisted_exclusions_veto :
  forall (text : string),
    (exists phrase,
       In phrase ["projected to"; "forecasted to"; "analyst predict"] /\
       contains phrase (lower text) = true) \/
    (exists c, is_space c = true /\
       contains ("if" ++ String c "") (lower text) = true) ->
    extract_ticker_and_percentage text = None.
Proof.
  intros text [(phrase & Hin & Hl) | (c & Hc & Hl)].
  - simpl in Hin. repeat (destruct Hin as [<- | Hin]; [veto|]). contradiction.
  - apply (excluded_pattern_vetoes text (Cat (Lit "if") (Plus is_space))).
    + unfold exclusion_patterns. simpl. tauto.
    + apply contains_split in Hl. destruct Hl as (pre & post & ->).
      apply search_from_complete. now apply lang_if_space.
Qed.

(** A ticker that ends in "IF" hides its own claim. *)
Lemma unlisted_exclusions_veto_witness :
  scan_patterns "SNIF surges 25% on earnings" movement_patterns
    = Some ("SNIF", 25%float, "up") /\
  extract_ticker_and_percentage "SNIF surges 25% on earnings" = None.
Proof.
  split; [vm_compute; reflexivity|].
  apply unlisted_exclusions_veto. right. exists " "%char.
  split; vm_compute; reflexivity.
Defined.

(** ** The shape of an extracted claim *)

Lemma upper_char_idempotent (c : ascii) : upper_char (upper_char c) = upper_char c.
Proof.
  destruct c as [b0 b1 b2 b3 b4 b5 b6 b7].
  destruct b0, b1, b2, b3, b4, b5, b6, b7; reflexivity.
Qed.

Lemma upper_idempotent (s : string) : upper (upper s) = upper s.
Proof.
  induction s as [|c s IH]; simpl; auto.
  now rewrite upper_char_idempotent, IH.
Qed.

Lemma SFcompare_opp (x y : spec_float) :
  SFcompare (SFopp x) (SFopp y) = SFcompare y x.
Proof.
  destruct x as [sx|sx| |sx mx ex], y as [sy|sy| |sy my ey]; simpl;
    try reflexivity;
    try (destruct sx; reflexivity); try (destruct sy; reflexivity);
    try (destruct sx, sy; reflexivity).
  destruct sx, sy; simpl; try reflexivity;
    rewrite (Z.compare_antisym ex ey);
    change (PosDef.Pos.compare_cont Eq my mx) with (Pos.compare my mx);
    change (PosDef.Pos.compare_cont Eq mx my) with (Pos.compare mx my);
    rewrite (Pos.compare_antisym mx my);
    destruct (ex ?= ey)%Z; simpl; try reflexivity;
    destruct (Pos.compare mx my); reflexivity.
Qed.

Lemma ltb_opp (x y : float) : (- x <? - y)%float = (y <? x)%float.
Proof.
  rewrite !ltb_spec, !opp_spec. unfold SFltb. now rewrite SFcompare_opp.
Qed.

Lemma abs_not_below (p : float) :
  (p <? 20)%float = false ->
  (abs p <? 20)%float = false /\ (abs (- p) <? 20)%float = false.
Proof.
  rewrite !ltb_spec, !abs_spec, opp_spec.
  change (Prim2SF 20) with (S754_finite false 5629499534213120 (-48)).
  destruct (Prim2SF p) as [[|]|[|]| |[|] m e]; simpl; auto; discriminate.
Qed.

Lemma scan_matches_shape (text : string) (ms : list rematch)
    (tk : string) (pct : float) (dir : string) :
  scan_matches text ms = Some (tk, pct, dir) ->
  upper tk = tk /\
  ((dir = "up" /\ (pct <? 20)%float = false) \/
   (dir = "down" /\ exists p, pct = (- p)%float /\ (p <? 20)%float = false)).
Proof.
  induction ms as [|m ms IH]; cbn [scan_matches]; [discriminate|].
  destruct (float_of_string (group text m 2)) as [p|]; auto.
  destruct (p <? 20)%float eqn:Ep; auto.
  match goal with |- context [if ?b then _ else _] => destruct b end;
    intros H; injection H as <- <- <-.
  - split; [apply upper_idempotent|]. right. split; auto. eauto.
  - split; [apply upper_idempotent|]. left. auto.
Qed.

Lemma scan_patterns_shape (text : string) (ps : list regex)
    (tk : string) (pct : float) (dir : string) :
  scan_patterns text ps = Some (tk, pct, dir) ->
  upper tk = tk /\
  ((dir = "up" /\ (pct <? 20)%float = false) \/
   (dir = "down" /\ exists p, pct = (- p)%float /\ (p <? 20)%float = false)).
Proof.
  induction ps as [|p ps IH]; cbn [scan_patterns]; [discriminate|].
  destruct (scan_matches text (finditer true p text)) as [[[tk' pct'] dir']|] eqn:E.
  - intros H. injection H as <- <- <-. now apply (scan_matches_shape text _ _ _ _ E).
  - exact IH.
Qed.

(** X15. Every extracted claim is well formed: its ticker is in upper case,
    its direction is "up" or "down", its magnitude is not below 20, and the
    sign agrees with the direction: an "up" claim is not below 20 and a
    "down" claim is not above -20. *)
Theorem extracted_claim_is_well_formed :
  forall (text tk : string) (pct : float) (dir : string),
    extract_ticker_and_percentage text = Some (tk, pct, dir) ->
    upper tk = tk /\
    (abs pct <? 20)%float = false /\
    ((dir = "up" /\ (pct <? 20)%float = false) \/
     (dir = "down" /\ (-20 <? pct)%float = false)).
Proof.
  intros text tk pct dir H. unfold extract_ticker_and_percentage in H.
  destruct (existsb _ exclusion_patterns); [discriminate|].
  apply scan_patterns_shape in H.
  destruct H as (Hu & [(-> & Hp) | (-> & p & -> & Hp)]).
  - split; auto. split; [apply (abs_not_below pct Hp) | auto].
  - split; auto. split; [apply (abs_not_below p Hp) |].
    right. split; auto.
    change ((PrimFloat.opp 20 <? PrimFloat.opp p)%float = false).
    now rewrite ltb_opp.
Qed.

Lemma extracted_claim_is_well_formed_witness :
  upper "XYZ" = "XYZ" /\
  (abs (-22) <? 20)%float = false /\
  (("down" = "up" /\ (-22 <? 20)%float = false) \/
   ("down" = "down" /\ (-20 <? -22)%float = false)).
Proof.
  apply (extracted_claim_is_well_formed "XYZ plunges 22% on guidance cut").
  vm_compute. reflexivity.
Defined.

End ExtractorFacts.

(* ================================================================== *)
(** * Theorems: movement and classification at rest *)
(* ================================================================== *)

Module RestFacts.

Import PriceTracker.
Local Open Scope float_scope.

Lemma finite_nonzero (p : float) :
  is_finite p = true -> (p =? 0) = false ->
  exists s m e, Prim2SF p = S754_finite s m e.
Proof.
  unfold is_finite, is_nan, is_infinity.
  rewrite !eqb_spec, abs_spec.
  change (Prim2SF infinity) with (S754_infinity false).
  change (Prim2SF 0) with (S754_zero false).
  destruct (Prim2SF p) as [[|]|[|]| |s m e]; simpl; try discriminate.
  intros _ _. eauto.
Qed.

Lemma SFsub_diag (s : bool) (m : positive) (e : Z) :
  SF64sub (S754_finite s m e) (S754_finite s m e) = S754_zero false.
Proof.
  unfold SF64sub, SFsub. rewrite Z.sub_diag. reflexivity.
Qed.

(** X16. A price that has not changed is no movement: for every finite
    previous close [p], the movement from [p] to [p] is a zero. *)
Theorem unchanged_price_is_no_movement :
  forall p : float,
    is_finite p = true -> (calculate_movement p p =? 0) = true.
Proof.
  intros p Hf. unfold calculate_movement.
  destruct (p =? 0) eqn:E0; [reflexivity|].
  destruct (finite_nonzero p Hf E0) as (s & m & e & Hp).
  assert (Hraw : exists z, Prim2SF ((p - p) / p * 100) = S754_zero z).
  { rewrite mul_spec, div_spec, sub_spec, Hp, SFsub_diag.
    change (Prim2SF 100) with (S754_finite false 7036874417766400 (-46)).
    unfold SF64div, SFdiv, SF64mul, SFmul. eauto. }
  destruct Hraw as (z & Hraw).
  unfold PyFloat.round2. rewrite Hraw.
  rewrite eqb_spec, Hraw. reflexivity.
Qed.

Lemma unchanged_price_is_no_movement_witness :
  (calculate_movement 187.5 187.5 =? 0) = true.
Proof. apply unchanged_price_is_no_movement. reflexivity. Defined.

Lemma zero_cases (mv : float) :
  (mv =? 0) = true -> exists z, Prim2SF mv = S754_zero z.
Proof.
  rewrite eqb_spec. change (Prim2SF 0) with (S754_zero false).
  destruct (Prim2SF mv) as [z|[|]| |[|] m e]; simpl; try discriminate; eauto.
Qed.

Lemma gap_at_rest (c mv : float) :
  (abs c <? 20) = false -> (mv =? 0) = true ->
  (abs (abs c - abs mv) <=? 5) = false /\
  (abs (abs c - abs mv) <=? 10) = false.
Proof.
  intros Hc Hmv. destruct (zero_cases mv Hmv) as (z & Hz).
  rewrite ltb_spec, abs_spec in Hc.
  rewrite !leb_spec, !abs_spec, !sub_spec, !abs_spec, Hz.
  change (Prim2SF 20) with (S754_finite false 5629499534213120 (-48)) in Hc.
  change (Prim2SF 10) with (S754_finite false 5629499534213120 (-49)).
  change (Prim2SF 5) with (S754_finite false 5629499534213120 (-50)).
  clear Hz Hmv.
  destruct (Prim2SF c) as [sc|sc| |sc m e];
    cbn [SFabs] in *; unfold SF64sub, SFsub; cbn [SFabs];
    unfold SFltb, SFleb, SFcompare in *.
  - discriminate.
  - auto.
  - auto.
  - destruct (Z.compare_spec e (-48)) as [E|E|E]; try discriminate;
      destruct (Z.compare_spec e (-49)) as [E1|E1|E1]; try lia;
      destruct (Z.compare_spec e (-50)) as [E2|E2|E2]; try lia; auto.
Qed.

(** X17. A tracked claim (of magnitude not below 20) on a stock that has
    not moved is never a HIT or a PARTIAL: it is a MISS at the close and
    stays PENDING before. *)
Theorem no_movement_is_no_hit :
  forall (c mv : float) (d : string) (m : bool),
    (abs c <? 20) = false ->
    (mv =? 0) = true ->
    determine_status c mv d m = if m then MISS else PENDING.
Proof.
  intros c mv d m Hc Hmv.
  destruct (gap_at_rest c mv Hc Hmv) as [G5 G10].
  unfold determine_status. rewrite G5, G10.
  assert (Hdown : (0 <? mv) = false).
  { destruct (zero_cases mv Hmv) as (z & Hz). rewrite ltb_spec, Hz.
    reflexivity. }
  rewrite Hdown. destruct (0 <? c), m; reflexivity.
Qed.

Lemma no_movement_is_no_hit_witness :
  determine_status 25 (calculate_movement 187.5 187.5) "up" true = MISS.
Proof.
  apply (no_movement_is_no_hit 25 (calculate_movement 187.5 187.5) "up" true).
  - reflexivity.
  - reflexivity.
Defined.

End RestFacts.

(* ================================================================== *)
(** * Theorems: more on duplicate detection *)
(* ================================================================== *)

Module DuplicateSetFacts.

Import PyDatetime Database App Spec StoreFacts DuplicateFacts.
Local Open Scope Z_scope.

(** ** Sign and magnitude in the float operations *)

Lemma SFabs_round_aux (s s' : bool) (m e : Z) (l : location) :
  SFabs (binary_round_aux prec emax s m e l)
  = SFabs (binary_round_aux prec emax s' m e l).
Proof.
  unfold binary_round_aux.
  destruct (shr_fexp prec emax m e l) as [mrs e1].
  destruct (shr_fexp prec emax _ e1 loc_Exact) as [mrs2 e2].
  destruct (shr_m mrs2); auto.
  destruct (e2 <=? emax - prec); reflexivity.
Qed.

Lemma SFabs_normalize_opp (z e : Z) :
  SFabs (binary_normalize prec emax (- z) e false)
  = SFabs (binary_normalize prec emax z e false).
Proof.
  unfold binary_normalize. destruct z as [|q|q]; simpl; auto;
    unfold binary_round;
    destruct (shl_align _ _ _) as [mz ez];
    apply SFabs_round_aux.
Qed.

Lemma SFabs_sub_comm (x y : spec_float) :
  SFabs (SF64sub x y) = SFabs (SF64sub y x).
Proof.
  unfold SF64sub, SFsub.
  destruct x as [sx|sx| |sx mx ex], y as [sy|sy| |sy my ey];
    try reflexivity;
    try (destruct sx, sy; reflexivity);
    try (destruct sx; reflexivity); try (destruct sy; reflexivity).
  rewrite (Z.min_comm ey ex).
  rewrite <- SFabs_normalize_opp. f_equal. f_equal. lia.
Qed.

(** The distance between two floats does not depend on their order. *)
Lemma abs_sub_comm (x y : float) : abs (x - y) = abs (y - x).
Proof.
  apply Prim2SF_inj. rewrite !abs_spec, !sub_spec. apply SFabs_sub_comm.
Qed.

Lemma SF2Prim_opp (z : spec_float) : SF2Prim (SFopp z) = (- SF2Prim z)%float.
Proof.
  destruct z as [[|]|[|]| |[|] m e]; try reflexivity.
  - simpl. apply Prim2SF_inj. rewrite !opp_spec.
    destruct (Prim2SF _) as [[|]|[|]| |[|] m' e']; reflexivity.
Qed.

Lemma SFdiv_opp (s : bool) (p d : positive) :
  SFdiv prec emax (S754_finite (negb s) p 0) (S754_finite false d 0)
  = SFopp (SFdiv prec emax (S754_finite s p 0) (S754_finite false d 0)).
Proof.
  unfold SFdiv.
  destruct (SFdiv_core_binary prec emax (Z.pos p) 0 (Z.pos d) 0) as [[q e] l].
  unfold binary_round_aux.
  destruct (shr_fexp prec emax q e l) as [mrs e1].
  destruct (shr_fexp prec emax _ e1 loc_Exact) as [mrs2 e2].
  destruct (shr_m mrs2); destruct s; simpl; auto;
    destruct (e2 <=? _); reflexivity.
Qed.

Lemma total_seconds_pos (q : positive) :
  total_seconds (Z.pos q)
  = SF2Prim (SFdiv prec emax (S754_finite false q 0) (S754_finite false 1000000 0)).
Proof. reflexivity. Qed.

Lemma total_seconds_neg (q : positive) :
  total_seconds (Z.neg q)
  = SF2Prim (SFdiv prec emax (S754_finite true q 0) (S754_finite false 1000000 0)).
Proof. reflexivity. Qed.

Lemma total_seconds_opp (delta : Z) :
  total_seconds (- delta) = (- total_seconds delta)%float \/
  (delta = 0 /\ total_seconds (- delta) = total_seconds delta).
Proof.
  destruct delta as [|q|q].
  - right. auto.
  - left. change (- Z.pos q) with (Z.neg q).
    rewrite total_seconds_pos, total_seconds_neg, <- SF2Prim_opp.
    f_equal. apply (SFdiv_opp false).
  - left. change (- Z.neg q) with (Z.pos q).
    rewrite total_seconds_pos, total_seconds_neg, <- SF2Prim_opp.
    f_equal. apply (SFdiv_opp true).
Qed.

Lemma SFabs_div_opp (x y : spec_float) :
  SFabs (SF64div (SFopp x) y) = SFabs (SF64div x y).
Proof.
  unfold SF64div, SFdiv.
  destruct x as [sx|sx| |sx mx ex], y as [sy|sy| |sy my ey];
    try reflexivity.
  simpl SFopp. cbv iota beta.
  destruct (SFdiv_core_binary prec emax (Z.pos mx) ex (Z.pos my) ey) as [[q e] l].
  apply SFabs_round_aux.
Qed.

Lemma abs_div_opp (x y : float) : abs (- x / y) = abs (x / y).
Proof.
  apply Prim2SF_inj. rewrite !abs_spec, !div_spec, opp_spec.
  apply SFabs_div_opp.
Qed.

Lemma hours_between_comm (t1 t2 : datetime) :
  hours_between t1 t2 = hours_between t2 t1.
Proof.
  unfold hours_between, sub.
  destruct (utcoffset t1) as [o1|], (utcoffset t2) as [o2|]; auto.
  - replace (wall_us t2 - o2 - (wall_us t1 - o1))
      with (- (wall_us t1 - o1 - (wall_us t2 - o2))) by lia.
    destruct (total_seconds_opp (wall_us t1 - o1 - (wall_us t2 - o2)))
      as [-> | [_ ->]]; auto.
    now rewrite abs_div_opp.
  - replace (wall_us t2 - wall_us t1) with (- (wall_us t1 - wall_us t2)) by lia.
    destruct (total_seconds_opp (wall_us t1 - wall_us t2)) as [-> | [_ ->]]; auto.
    now rewrite abs_div_opp.
Qed.

Section WithParser.

Variable fromisoformat : string -> option datetime.

(** X19. Being a duplicate does not depend on the order of arrival: for two
    predictions with readable timestamps, the first is a duplicate of a claim
    made of the second exactly when the second is a duplicate of a claim made
    of the first. *)
Theorem duplicate_of_is_symmetric :
  forall (a b : article) (ta tb : datetime),
    fromisoformat (article_timestamp a) = Some ta ->
    fromisoformat (article_timestamp b) = Some tb ->
    (duplicate_of fromisoformat (ticker b) (claimed_percentage b) tb
       (collection_date b) a <->
     duplicate_of fromisoformat (ticker a) (claimed_percentage a) ta
       (collection_date a) b).
Proof.
  assert (H : forall a b ta tb,
    fromisoformat (article_timestamp a) = Some ta ->
    fromisoformat (article_timestamp b) = Some tb ->
    duplicate_of fromisoformat (ticker b) (claimed_percentage b) tb
      (collection_date b) a ->
    duplicate_of fromisoformat (ticker a) (claimed_percentage a) ta
      (collection_date a) b).
  { intros a b ta tb Ha Hb (H1 & H2 & H3 & t & h & Ht & Hh & Hle).
    rewrite Ha in Ht. injection Ht as <-.
    repeat split; auto.
    - now rewrite abs_sub_comm.
    - exists tb, h. repeat split; auto. now rewrite hours_between_comm. }
  intros a b ta tb Ha Hb. split; apply H; auto.
Qed.

(** ** The duplicate set *)

Lemma scan_rows_sub (t : datetime) (rows : list article) :
  NoDup (map id rows) ->
  NoDup (scan_rows fromisoformat t rows) /\
  incl (scan_rows fromisoformat t rows) (map id rows).
Proof.
  induction rows as [|row rows IH]; simpl; intros H.
  - split; [constructor | apply incl_refl].
  - inversion H as [|? ? Hnot Hnd]; subst.
    destruct (IH Hnd) as [I1 I2].
    destruct (within_window fromisoformat t (article_timestamp row)) as [[|]|].
    + split.
      * constructor; auto.
      * intros k [<- | Hk]; [now left | right; auto].
    + split; auto. intros k Hk. right. auto.
    + split; auto. intros k Hk. right. auto.
Qed.

(** X20. The duplicate set holds ids of stored predictions only, each once;
    the id that the new claim gets on insertion is never among them, and on a
    database without predictions the set is empty. *)
Theorem duplicate_set_is_a_set_of_stored_ids :
  forall (now : Z) (d : db) (tk : string) (p : float) (ts date : string),
    schema_ok d ->
    let found := check_for_duplicates fromisoformat now d tk p ts date in
    NoDup found /\
    incl found (map id (articles d)) /\
    ~ In (articles_seq d + 1) found /\
    (articles d = [] -> found = []).
Proof.
  intros now d tk p ts date Hok found.
  pose proof Hok as (Nid & _ & Hb & _).
  assert (Hsub : NoDup found /\
                 incl found (map id (filter (similar_claim tk p date) (articles d)))).
  { apply scan_rows_sub. now apply FrameFacts.NoDup_map_filter. }
  destruct Hsub as [H1 H2].
  assert (H3 : incl found (map id (articles d))).
  { intros k Hk. apply H2 in Hk. apply in_map_iff in Hk.
    destruct Hk as (a & <- & Ha). apply filter_In in Ha. apply in_map. tauto. }
  split; auto. split; auto. split.
  - intros Hin. apply H3 in Hin. apply in_map_iff in Hin.
    destruct Hin as (a & Hid & Ha). rewrite Forall_forall in Hb.
    specialize (Hb a Ha). lia.
  - intros E. unfold found, check_for_duplicates. rewrite E. reflexivity.
Qed.

End WithParser.

Lemma duplicate_of_is_symmetric_witness :
  duplicate_of iso_parse "NVDA" 26 Samples.time_b "2024-01-15" Samples.row_a <->
  duplicate_of iso_parse "NVDA" 24 Samples.time_a "2024-01-15" Samples.row_b.
Proof.
  exact (duplicate_of_is_symmetric iso_parse Samples.row_a Samples.row_b
           Samples.time_a Samples.time_b eq_refl eq_refl).
Defined.

Lemma duplicate_set_is_a_set_of_stored_ids_witness :
  let found :=
    check_for_duplicates iso_parse Examples.clock_1030 Examples.nvda_db
      "NVDA" 26 "2024-01-15T10:50:00-05:00" "2024-01-15" in
  NoDup found /\
  incl found (map id (articles Examples.nvda_db)) /\
  ~ In (articles_seq Examples.nvda_db + 1) found /\
  (articles Examples.nvda_db = [] -> found = []).
Proof.
  exact (duplicate_set_is_a_set_of_stored_ids iso_parse Examples.clock_1030
           Examples.nvda_db "NVDA" 26 "2024-01-15T10:50:00-05:00" "2024-01-15"
           nvda_db_ok).
Defined.

End DuplicateSetFacts.

(* ================================================================== *)
(** * Theorems: what the movement patterns capture *)
(* ================================================================== *)

Module MatchFacts.

Import Re Scraper ReSem.
Local Open Scope nat_scope.
Local Open Scope string_scope.

(** ** Strings *)








(** ** Positions *)





Lemma ahead_set_cap (w : string) (n from to : nat) (a b : mstate) :
  ahead w a b -> ahead w a (set_cap n from to b).
Proof. intros H. exact H. Qed.


(** ** The matcher is sound for [steps] *)





(** ** What [steps] consumes *)



(** ** The groups that [steps] closes *)






(** ** Every match that [finditer] yields is a match *)




(** ** The groups of the movement patterns *)













(** ** The numbers that [float] reads *)




(** ** Where a claim comes from *)








(** ** The exclusion filter, exactly *)





(** ** The direction of a fall *)







(** The text of a match includes the ticker: a ticker that holds one of the
    words of a fall makes a rise a fall. *)
Example rising_ticker_named_down :
  extract_ticker_and_percentage "DOWN surges 25% in early trading"
    = Some ("DOWN", (-25)%float, "down").
Proof. vm_compute. reflexivity. Qed.

End MatchFacts.
